(** * Build-configuration resolution and packaging pipeline

    A shallow embedding of [cli/enhanced-build-service.js] (the EAS-compatible
    build command) and of the [build] action of the plain command-line tool,
    with the properties its specification states about them.

    Conventions of the embedding.
    - A JavaScript value read from a JSON document is a [jsval].  Numbers are
      the integral numerals; text is a [string], one [ascii] per character.
    - A function that can throw, or end the process, returns an [outcome].
    - Code that touches the file system or the network is a function on a
      [World] (files and the list of effects so far) and is parameterised by a
      [Host]: the libraries and services the program calls but does not
      define ([path], [JSON.parse], archiver, the storage SDK, [fetch]).
    - Console output is not recorded; an expression evaluated for a log line
      is kept where its evaluation can throw. *)

From Stdlib Require Import ZArith Ascii List.
From Stdlib Require String.
From stdpp Require Import base option list strings gmap pretty.

Set Warnings "-register-all".

Local Open Scope Z_scope.

(** ** JavaScript values *)

Inductive jsval : Type :=
  | JUndefined
  | JNull
  | JBool (b : bool)
  | JNum (n : Z)
  | JStr (s : string)
  | JArr (items : list jsval)
  | JObj (fields : list (string * jsval))
  | JBuiltin.
(* [JBuiltin] is a member found on a prototype chain rather than in the
   document (a built-in function or prototype object, for instance
   [build["constructor"]]): it is truthy and has none of the members this
   program reads. *)

Inductive js_error : Type :=
  | TypeError (msg : string)
  | SyntaxError (msg : string)
  | FsError (code : string) (path : string)
  | LibError (msg : string)
  | ApiError (msg : string).

Inductive outcome (A : Type) : Type :=
  | Ret (a : A)
  | Throw (e : js_error)
  | Exit (code : Z).

Arguments Ret {A} a.
Arguments Throw {A} e.
Arguments Exit {A} code.

Definition obind {A B} (m : outcome A) (k : A -> outcome B) : outcome B :=
  match m with
  | Ret a => k a
  | Throw e => Throw e
  | Exit c => Exit c
  end.

Declare Scope js_scope.
Delimit Scope js_scope with js.
Notation "'let?' x ':=' m 'in' k" := (obind m (fun x => k))
  (at level 10, x name, m at level 100, k at level 200) : js_scope.
Local Open Scope js_scope.

(** ToBoolean. *)
Definition truthy (v : jsval) : bool :=
  match v with
  | JUndefined | JNull => false
  | JBool b => b
  | JNum n => negb (n =? 0)
  | JStr s => negb (String.eqb s "")
  | JArr _ | JObj _ | JBuiltin => true
  end.

(** Strict equality with a string literal: [v === 'lit']. *)
Definition strict_eq_str (v : jsval) (lit : string) : bool :=
  match v with
  | JStr s => String.eqb s lit
  | _ => false
  end.

(** Strict equality with [true]: [v === true]. *)
Definition strict_eq_true (v : jsval) : bool :=
  match v with
  | JBool true => true
  | _ => false
  end.

(** Own property of an object literal, by name. *)
Fixpoint assoc (k : string) (fields : list (string * jsval)) : option jsval :=
  match fields with
  | [] => None
  | (k', v) :: rest => if String.eqb k k' then Some v else assoc k rest
  end.

Definition is_digit (c : ascii) : bool :=
  ((48 <=? nat_of_ascii c) && (nat_of_ascii c <=? 57))%nat.

Fixpoint digits_value (acc : nat) (s : string) : option nat :=
  match s with
  | EmptyString => Some acc
  | String c rest =>
      if is_digit c
      then digits_value (10 * acc + (nat_of_ascii c - 48))%nat rest
      else None
  end.

(** A canonical array index: ["0"], or digits with no leading zero. *)
Definition parse_index (k : string) : option nat :=
  match k with
  | EmptyString => None
  | String c rest =>
      if Ascii.eqb c "0"
      then (if String.eqb rest "" then Some 0%nat else None)
      else digits_value 0 k
  end.

(** Members a value carries itself: the fields of an object, the elements and
    [length] of an array, the characters and [length] of a string. *)
Definition own_property (v : jsval) (k : string) : option jsval :=
  match v with
  | JObj fields => assoc k fields
  | JArr items =>
      if String.eqb k "length" then Some (JNum (Z.of_nat (List.length items)))
      else match parse_index k with
           | Some i => items !! i
           | None => None
           end
  | JStr s =>
      if String.eqb k "length" then Some (JNum (Z.of_nat (String.length s)))
      else match parse_index k with
           | Some i =>
               match String.get i s with
               | Some c => Some (JStr (String c EmptyString))
               | None => None
               end
           | None => None
           end
  | _ => None
  end.

(** [v.name] for the fixed member names of this program
    ([build], [developmentClient], [distribution], [android], [buildType],
    [gradleCommand], [env], [autoIncrement], [appwriteEndpoint], ... ), none
    of which is a member of a built-in prototype: the own property, else
    [undefined]; reading a member of [null] or [undefined] throws. *)
Definition js_get (v : jsval) (name : string) : outcome jsval :=
  match v with
  | JUndefined | JNull =>
      Throw (TypeError ("Cannot read properties of null or undefined: " +:+ name))
  | _ => Ret (default JUndefined (own_property v name))
  end.

(** [js_get] on a value already known to be truthy. *)
Definition js_field (v : jsval) (name : string) : jsval :=
  default JUndefined (own_property v name).

(** Optional chaining with a fixed name: [v?.name]. *)
Definition js_get_opt (v : jsval) (name : string) : jsval :=
  match v with
  | JUndefined | JNull => JUndefined
  | _ => js_field v name
  end.

(** Optional chaining with a computed key: [v?.[key]].  The key is
    arbitrary, so it may also name an inherited member; [inherited v key]
    tells whether the prototype chain of [v] has one. *)
Definition js_index_opt (inherited : jsval -> string -> bool)
    (v : jsval) (key : string) : jsval :=
  match v with
  | JUndefined | JNull => JUndefined
  | _ =>
      match own_property v key with
      | Some x => x
      | None => if inherited v key then JBuiltin else JUndefined
      end
  end.

(** [String(v)] as a template literal computes it.  An object is rendered by
    the inherited [toString] unless an own member of that name hides it (a
    JSON value is never callable, and [valueOf] yields the object itself, so
    the conversion then throws); an array joins its elements with commas.  A
    number, an integer here, is written with all its digits, which is how
    JavaScript writes an integer of magnitude below 10^21. *)
Fixpoint js_to_string (v : jsval) : outcome string :=
  match v with
  | JUndefined => Ret "undefined"
  | JNull => Ret "null"
  | JBool true => Ret "true"
  | JBool false => Ret "false"
  | JNum n => Ret (pretty n)
  | JStr s => Ret s
  | JObj fields =>
      match assoc "toString" fields with
      | Some _ => Throw (TypeError "Cannot convert object to primitive value")
      | None => Ret "[object Object]"
      end
  | JArr items =>
      (fix join (first : bool) (l : list jsval) : outcome string :=
         match l with
         | [] => Ret ""
         | x :: rest =>
             let? sx := match x with
                        | JUndefined | JNull => Ret ""
                        | _ => js_to_string x
                        end in
             let? sr := join false rest in
             Ret ((if first then "" else ",") +:+ sx +:+ sr)
         end) true items
  | JBuiltin => Ret "function () { [native code] }"
  end.

(** [v.toUpperCase()] evaluated for a log line: only a string has the
    method; the upper-cased text itself is printed and dropped. *)
Definition call_toUpperCase (v : jsval) : outcome unit :=
  match v with
  | JStr _ => Ret tt
  | _ => Throw (TypeError "toUpperCase is not a function")
  end.

(** ** String helpers *)

(** [c.toUpperCase()] on the letters a-z; other characters of the ASCII
    range are unchanged. *)
Definition upper_ascii (c : ascii) : ascii :=
  let n := nat_of_ascii c in
  if ((97 <=? n) && (n <=? 122))%nat then ascii_of_nat (n - 32) else c.

(** [s.charAt(0).toUpperCase() + s.slice(1)]. *)
Definition capitalize (s : string) : string :=
  match s with
  | EmptyString => EmptyString
  | String c rest => String (upper_ascii c) rest
  end.

(** The white space and line terminators of the one-byte range: tab to
    carriage return, space, no-break space. *)
Definition is_space (c : ascii) : bool :=
  let n := nat_of_ascii c in
  (((9 <=? n) && (n <=? 13)) || (n =? 32) || (n =? 160))%nat.

Fixpoint drop_spaces (s : string) : string :=
  match s with
  | EmptyString => EmptyString
  | String c rest => if is_space c then drop_spaces rest else s
  end.

(** [s.trim()]: white space and line terminators removed at both ends. *)
Definition trim (s : string) : string :=
  String.rev (drop_spaces (String.rev (drop_spaces s))).

(** [s.split(sep)] for a one-character separator; never the empty list. *)
Fixpoint split_on (sep : ascii) (s : string) : list string :=
  match s with
  | EmptyString => [EmptyString]
  | String c rest =>
      if Ascii.eqb c sep then EmptyString :: split_on sep rest
      else match split_on sep rest with
           | [] => [String c EmptyString]
           | h :: t => String c h :: t
           end
  end.

(** [s.startsWith(p)]. *)
Definition starts_with (p s : string) : bool := String.prefix p s.

(** [s.endsWith(p)]. *)
Definition ends_with (p s : string) : bool :=
  String.prefix (String.rev p) (String.rev s).

Definition newline : ascii := ascii_of_nat 10.

(** ** ProfileResolver: [mapProfileToConfig] *)

Record BuildConfig : Type := mkBuildConfig {
  variant : string;
  buildType : jsval;
  gradleCommand : jsval;
  env : jsval;
  autoIncrement : bool;
  distribution : jsval
}.

Definition set_variant (x : string) (c : BuildConfig) : BuildConfig :=
  mkBuildConfig x (buildType c) (gradleCommand c) (env c) (autoIncrement c)
    (distribution c).
Definition set_buildType (x : jsval) (c : BuildConfig) : BuildConfig :=
  mkBuildConfig (variant c) x (gradleCommand c) (env c) (autoIncrement c)
    (distribution c).
Definition set_gradleCommand (x : jsval) (c : BuildConfig) : BuildConfig :=
  mkBuildConfig (variant c) (buildType c) x (env c) (autoIncrement c)
    (distribution c).
Definition set_env (x : jsval) (c : BuildConfig) : BuildConfig :=
  mkBuildConfig (variant c) (buildType c) (gradleCommand c) x (autoIncrement c)
    (distribution c).
Definition set_autoIncrement (x : bool) (c : BuildConfig) : BuildConfig :=
  mkBuildConfig (variant c) (buildType c) (gradleCommand c) (env c) x
    (distribution c).
Definition set_distribution (x : jsval) (c : BuildConfig) : BuildConfig :=
  mkBuildConfig (variant c) (buildType c) (gradleCommand c) (env c)
    (autoIncrement c) x.

(** The object literal at the head of [mapProfileToConfig]. *)
Definition default_config : BuildConfig :=
  {| variant := "release";
     buildType := JStr "apk";
     gradleCommand := JNull;
     env := JObj [];
     autoIncrement := false;
     distribution := JStr "internal" |}.

(** The [android] block of [mapProfileToConfig]: each of the two fields is
    copied when truthy, and then printed. *)
Definition map_android (android : jsval) (config : BuildConfig)
    : outcome BuildConfig :=
  let? config :=
    if truthy (js_field android "buildType") then
      let config := set_buildType (js_field android "buildType") config in
      let? _ := call_toUpperCase (buildType config) in
      Ret config
    else Ret config in
  if truthy (js_field android "gradleCommand") then
    let config := set_gradleCommand (js_field android "gradleCommand") config in
    let? _ := js_to_string (gradleCommand config) in
    Ret config
  else Ret config.

(* The log line of the [env] field counts [Object.keys] of a truthy value,
   which does not throw; the other log lines print fixed text. *)
Definition mapProfileToConfig (profile : string) (profileConfig : jsval)
    : outcome BuildConfig :=
  let config := default_config in
  if negb (truthy profileConfig) then Ret config
  else
    let config :=
      if strict_eq_true (js_field profileConfig "developmentClient")
      then set_variant "debug" config else config in
    let config :=
      if truthy (js_field profileConfig "distribution")
      then set_distribution (js_field profileConfig "distribution") config
      else config in
    let? config :=
      if truthy (js_field profileConfig "android")
      then map_android (js_field profileConfig "android") config
      else Ret config in
    let config :=
      if truthy (js_field profileConfig "env")
      then set_env (js_field profileConfig "env") config else config in
    let config :=
      if strict_eq_true (js_field profileConfig "autoIncrement")
      then set_autoIncrement true config else config in
    Ret config.

(** ** CommandDeriver: [getGradleCommand] *)

Definition getGradleCommand (config : BuildConfig) : jsval :=
  if truthy (gradleCommand config) then gradleCommand config
  else
    let variantCapitalized := capitalize (variant config) in
    if strict_eq_str (buildType config) "aab"
    then JStr ("bundle" +:+ variantCapitalized)
    else JStr ("assemble" +:+ variantCapitalized).

(** ** IgnorePolicy: the exclusion patterns of [packageProject] *)

(** The [split / map / filter / map] chain applied to [.buildignore]. *)
Definition parse_buildignore (content : string) : list string :=
  map (fun line => if ends_with "/" line then line +:+ "**" else line)
    (List.filter
       (fun line => negb (String.eqb line "") && negb (starts_with "#" line))
       (map trim (split_on newline content))).

Definition builtin_excludes : list string :=
  [ "node_modules/**"; ".git/**"; ".expo/**"; "dist/**"; "build/**";
    ".vscode/**"; "*.log"; "android/app/build/**"; "android/.gradle/**";
    "android/build/**"; "ios/build/**"; "ios/Pods/**" ].

(** [defaultExcludes] and [allExcludes], from the patterns read from
    [.buildignore] (the empty list when there is no such file). *)
Definition all_excludes (buildIgnorePatterns excludePatterns : list string)
    : list string :=
  let defaultExcludes :=
    if (0 <? List.length buildIgnorePatterns)%nat
    then buildIgnorePatterns else builtin_excludes in
  defaultExcludes ++ excludePatterns.

(** ** The world: files and effects *)

Inductive node : Type :=
  | File (content : string)
  | Dir.

Inductive event : Type :=
  | EvExists (p : string)                        (* fs.existsSync *)
  | EvRead (p : string)                          (* fs.readFileSync *)
  | EvCreate (p : string)                        (* fs.createWriteStream, fs.mkdirSync *)
  | EvUnlink (p : string)                        (* fs.unlinkSync, fs.rmSync *)
  | EvArchive (root : string) (ignore : list string)  (* archiver, tar *)
  | EvUpload (bucket : jsval) (fileName : string)     (* storage.createFile *)
  | EvDispatch (url : string) (payload : jsval).      (* fetch, axios.post *)

Record World : Type := mkWorld {
  files : gmap string node;
  clock : Z;
  trace : list event
}.

Definition is_network (e : event) : bool :=
  match e with
  | EvUpload _ _ | EvDispatch _ _ => true
  | _ => false
  end.

Definition is_unlink (e : event) : bool :=
  match e with
  | EvUnlink _ => true
  | _ => false
  end.

(** What the program calls and does not define.  A library call that can
    fail returns [inl] of the error it throws or rejects with. *)
Record Host : Type := mkHost {
  path_join : string -> string -> string;
  path_basename : string -> string;
  homedir : string;
  tmpdir : string;
  cwd : string;
  JSON_parse : string -> option jsval;
  inherited : jsval -> string -> bool;
  (* archiver('tar', {gzip}) globbing "**/*" under a root with an ignore list *)
  archiver_tar : gmap string node -> string -> list string -> js_error + string;
  (* what the archiver had piped into its output when it reported the error *)
  archiver_written : gmap string node -> string -> list string -> string;
  (* new Client().setEndpoint(e).setProject(p).setKey(k) *)
  client_new : jsval -> jsval -> jsval -> option js_error;
  (* storage.createFile(bucket, ID.unique(), file) *)
  storage_createFile : jsval -> string -> string -> js_error + jsval;
  (* a POST request: url, bearer token, body; the answer is (ok, status) *)
  http_post : string -> string -> jsval -> js_error + (bool * string);
  (* fs.readdirSync(dir, {withFileTypes}) as entry names *)
  readdirSync : gmap string node -> string -> js_error + list string;
  (* tar.create({gzip, file, cwd, portable}, entries) *)
  tar_create : gmap string node -> string -> list string -> js_error + string;
  (* the reading of Date.now() that follows a given reading *)
  clock_after : Z -> Z
}.

Definition M (A : Type) : Type := World -> outcome A * World.

Definition mret {A} (a : A) : M A := fun w => (Ret a, w).

Definition mbind {A B} (m : M A) (k : A -> M B) : M B :=
  fun w =>
    match m w with
    | (Ret a, w') => k a w'
    | (Throw e, w') => (Throw e, w')
    | (Exit c, w') => (Exit c, w')
    end.

Notation "'let!' x ':=' m 'in' k" := (mbind m (fun x => k))
  (at level 10, x name, m at level 100, k at level 200) : js_scope.

Definition lift {A} (o : outcome A) : M A := fun w => (o, w).

Definition throw {A} (e : js_error) : M A := fun w => (Throw e, w).

(** [process.exit(code)]. *)
Definition process_exit {A} (code : Z) : M A := fun w => (Exit code, w).

(** [try { m } catch (error) { handler error }]. *)
Definition try_catch {A} (m : M A) (handler : js_error -> M A) : M A :=
  fun w =>
    match m w with
    | (Throw e, w') => handler e w'
    | r => r
    end.

Definition emit (e : event) : M unit :=
  fun w => (Ret tt, mkWorld (files w) (clock w) (trace w ++ [e])).

(** [Date.now()]: the clock is read; the reading after this one is the
    host's [clock_after] of it. *)
Definition Date_now (h : Host) : M Z :=
  fun w => (Ret (clock w), mkWorld (files w) (clock_after h (clock w)) (trace w)).

Definition existsSync (p : string) : M bool :=
  let! _ := emit (EvExists p) in
  fun w => (Ret (match files w !! p with Some _ => true | None => false end), w).

Definition readFileSync (p : string) : M string :=
  let! _ := emit (EvRead p) in
  fun w =>
    match files w !! p with
    | Some (File content) => (Ret content, w)
    | Some Dir => (Throw (FsError "EISDIR" p), w)
    | None => (Throw (FsError "ENOENT" p), w)
    end.

Definition write_file (p content : string) : M unit :=
  fun w => (Ret tt, mkWorld (<[p := File content]> (files w)) (clock w) (trace w)).

(** [fs.createWriteStream(p)]: the stream is taken to open, and the file is
    there, empty, from here on.  (The script registers no listener for an
    error of the stream itself; a run in which the stream fails to open or to
    write is not described by this model.) *)
Definition createWriteStream (p : string) : M unit :=
  let! _ := emit (EvCreate p) in
  write_file p "".

Definition unlinkSync (p : string) : M unit :=
  let! _ := emit (EvUnlink p) in
  fun w =>
    match files w !! p with
    | Some (File _) =>
        (Ret tt, mkWorld (delete p (files w)) (clock w) (trace w))
    | Some Dir => (Throw (FsError "EISDIR" p), w)
    | None => (Throw (FsError "ENOENT" p), w)
    end.

Definition of_result {A} (r : js_error + A) : M A :=
  match r with
  | inl e => throw e
  | inr a => mret a
  end.

(** [a || b] on an optional string: the empty string is falsy too. *)
Definition or_else (a : option string) (b : string) : string :=
  match a with
  | Some s => if String.eqb s "" then b else s
  | None => b
  end.

(** ** DispatchPipeline: [cli/enhanced-build-service.js] *)

Record Options : Type := mkOptions {
  opt_path : option string;
  opt_profile : option string
}.

(** What [build] prints under "Build Information" when it completes. *)
Record BuildInfo : Type := mkBuildInfo {
  info_buildId : string;
  info_fileId : jsval
}.

Section Pipeline.
Variable h : Host.

Definition CONFIG_FILE : string := path_join h (homedir h) ".build-service.json".

Definition json_parse (text : string) : M jsval :=
  match JSON_parse h text with
  | Some v => mret v
  | None => throw (SyntaxError "Unexpected token in JSON")
  end.

Definition loadConfig : M jsval :=
  let! found := existsSync CONFIG_FILE in
  if negb found then process_exit 1
  else
    let! text := readFileSync CONFIG_FILE in
    json_parse text.

Definition loadEasConfig (projectPath : string) : M jsval :=
  let easJsonPath := path_join h projectPath "eas.json" in
  let! found := existsSync easJsonPath in
  if negb found then mret JNull
  else
    try_catch
      (let! text := readFileSync easJsonPath in json_parse text)
      (fun _ => mret JNull).

(** The archive is piped into the stream opened first.  It is complete when
    the stream closes; when the archiver reports an error instead, the output
    holds what had been piped into it by then. *)
Definition run_archiver (projectPath outputPath : string)
    (allExcludes : list string) : M string :=
  let! _ := emit (EvArchive projectPath allExcludes) in
  fun w =>
    match archiver_tar h (files w) projectPath allExcludes with
    | inr bytes =>
        (let! _ := write_file outputPath bytes in mret outputPath) w
    | inl e =>
        (let! _ :=
           write_file outputPath
             (archiver_written h (files w) projectPath allExcludes) in
         throw e) w
    end.

(** Lines 142-153: the patterns of [.buildignore], if the file exists. *)
Definition read_buildignore (projectPath : string) : M (list string) :=
  let buildIgnorePath := path_join h projectPath ".buildignore" in
  let! found := existsSync buildIgnorePath in
  if found then
    let! buildIgnoreContent := readFileSync buildIgnorePath in
    mret (parse_buildignore buildIgnoreContent)
  else mret [].

Definition output_path (timestamp : Z) : string :=
  path_join h (tmpdir h) ("build-" +:+ pretty timestamp +:+ ".tar.gz").

Definition packageProject (projectPath : string)
    (excludePatterns : list string) : M string :=
  let! timestamp := Date_now h in
  let outputPath := output_path timestamp in
  let! _ := createWriteStream outputPath in
  let! buildIgnorePatterns := read_buildignore projectPath in
  let allExcludes := all_excludes buildIgnorePatterns excludePatterns in
  run_archiver projectPath outputPath allExcludes.

Definition uploadToAppwrite (filePath : string) (config : jsval) : M jsval :=
  let! endpoint := lift (js_get config "appwriteEndpoint") in
  let! project := lift (js_get config "appwriteProject") in
  let! key := lift (js_get config "appwriteKey") in
  match client_new h endpoint project key with
  | Some e => throw e
  | None =>
      let! fileBuffer := readFileSync filePath in
      let fileName := path_basename h filePath in
      let! bucket := lift (js_get config "appwriteBucket") in
      let! _ := emit (EvUpload bucket fileName) in
      let! file := of_result (storage_createFile h bucket fileBuffer fileName) in
      let! id := lift (js_get file "$id") in
      let! _ := lift (js_to_string id) in
      mret file
  end.

Definition dispatch_payload (sourceUrl buildId : string)
    (buildConfig : BuildConfig) : jsval :=
  JObj [ ("event_type", JStr "remote-build");
         ("client_payload",
          JObj [ ("source_url", JStr sourceUrl);
                 ("build_id", JStr buildId);
                 ("platform", JStr "android");
                 ("variant", JStr (variant buildConfig));
                 ("build_type", buildType buildConfig);
                 ("gradle_command", getGradleCommand buildConfig);
                 ("auto_increment", JBool (autoIncrement buildConfig));
                 ("env", env buildConfig) ]) ].

Definition triggerBuild (sourceUrl : string) (buildConfig : BuildConfig)
    (config : jsval) : M string :=
  let! now := Date_now h in
  let buildId := pretty now in
  let payload := dispatch_payload sourceUrl buildId buildConfig in
  let! _ := lift (js_to_string (getGradleCommand buildConfig)) in
  let! _ := lift (call_toUpperCase (buildType buildConfig)) in
  let! repo := lift (js_get config "githubRepo") in
  let! repo := lift (js_to_string repo) in
  let! token := lift (js_get config "githubToken") in
  let! token := lift (js_to_string token) in
  let url := "https://api.github.com/repos/" +:+ repo +:+ "/dispatches" in
  let! _ := emit (EvDispatch url payload) in
  let! response := of_result (http_post h url token payload) in
  if negb (fst response)
  then throw (ApiError ("GitHub API error: " +:+ snd response))
  else mret buildId.

(** The [try] block of [build]. *)
Definition build_steps (options : Options) : M BuildInfo :=
  let projectPath := or_else (opt_path options) (cwd h) in
  let profile := or_else (opt_profile options) "production" in
  let! config := loadConfig in
  let! easConfig := loadEasConfig projectPath in
  let profileConfig :=
    js_index_opt (inherited h) (js_get_opt easConfig "build") profile in
  let! buildConfig := lift (mapProfileToConfig profile profileConfig) in
  let! packagePath := packageProject projectPath [] in
  let! file := uploadToAppwrite packagePath config in
  let! endpoint := lift (js_get config "appwriteEndpoint") in
  let! endpoint := lift (js_to_string endpoint) in
  let! bucket := lift (js_get config "appwriteBucket") in
  let! bucket := lift (js_to_string bucket) in
  let! id := lift (js_get file "$id") in
  let! ids := lift (js_to_string id) in
  let sourceUrl :=
    endpoint +:+ "/storage/buckets/" +:+ bucket +:+ "/files/" +:+ ids
      +:+ "/download" in
  let! buildId := triggerBuild sourceUrl buildConfig config in
  let! _ := unlinkSync packagePath in
  let! _ := lift (call_toUpperCase (buildType buildConfig)) in
  mret (mkBuildInfo buildId id).

Definition build (options : Options) : M BuildInfo :=
  try_catch (build_steps options) (fun _ => process_exit 1).

(** [ProfileResolver.resolve]: the part of [build] that turns the project's
    profile document into the build configuration. *)
Definition resolve (projectPath profile : string) : M BuildConfig :=
  let! easConfig := loadEasConfig projectPath in
  let profileConfig :=
    js_index_opt (inherited h) (js_get_opt easConfig "build") profile in
  lift (mapProfileToConfig profile profileConfig).

End Pipeline.

(** ** The plain command-line tool: its [build] action *)

Module Legacy.

Record BuildOptions : Type := mkBuildOptions {
  opt_platform : string;
  opt_variant : string;
  opt_wait : bool
}.

Definition exclude : list string :=
  [ "node_modules"; ".git"; ".expo"; "android"; "ios"; ".gradle";
    "test.tar.gz"; "test2.tar.gz" ].

Definition includes (names : list string) (name : string) : bool :=
  existsb (String.eqb name) names.

Section Action.
Variable h : Host.

Definition CONFIG_PATH : string :=
  path_join h (homedir h) ".build-service.json".

(** [config] starts as the empty object and is replaced by the stored
    document when there is one. *)
Definition loadConfig : M jsval :=
  let! found := existsSync CONFIG_PATH in
  if found then
    let! text := readFileSync CONFIG_PATH in
    json_parse h text
  else mret (JObj []).

(** The six-field test of the action, left to right with [||]. *)
Definition missing_configuration (config : jsval) : outcome bool :=
  let? a := js_get config "appwriteEndpoint" in
  if negb (truthy a) then Ret true else
  let? b := js_get config "appwriteProject" in
  if negb (truthy b) then Ret true else
  let? c := js_get config "appwriteKey" in
  if negb (truthy c) then Ret true else
  let? d := js_get config "appwriteBucket" in
  if negb (truthy d) then Ret true else
  let? e := js_get config "githubToken" in
  if negb (truthy e) then Ret true else
  let? f := js_get config "githubRepo" in
  Ret (negb (truthy f)).

Definition mkdirSync (p : string) : M unit :=
  let! _ := emit (EvCreate p) in
  fun w => (Ret tt, mkWorld (<[p := Dir]> (files w)) (clock w) (trace w)).

(** [fs.rmSync(dir, {recursive, force})] for the temporary directory,
    whose one entry is the archive. *)
Definition rmSync (dir archive : string) : M unit :=
  let! _ := emit (EvUnlink dir) in
  fun w =>
    (Ret tt,
     mkWorld (delete dir (delete archive (files w))) (clock w) (trace w)).

(** [s.split('/')] on a value: only a string has the method. *)
Definition call_split (v : jsval) : outcome (list string) :=
  match v with
  | JStr s => Ret (split_on "/" s)
  | _ => Throw (TypeError "split is not a function")
  end.

Definition build (projectPath : string) (options : BuildOptions)
    : M string :=
  try_catch
    (let! config := loadConfig in
     let! missing := lift (missing_configuration config) in
     if missing then process_exit 1
     else
       let! now := Date_now h in
       let buildId := pretty now in
       let tempDir := path_join h (tmpdir h) ("build-service-" +:+ buildId) in
       let! _ := mkdirSync tempDir in
       let archivePath := path_join h tempDir "project.tar.gz" in
       let! names :=
         (fun w => of_result (readdirSync h (files w) projectPath) w) in
       let entries := List.filter (fun n => negb (includes exclude n)) names in
       let! _ := emit (EvArchive projectPath exclude) in
       let! bytes :=
         (fun w => of_result (tar_create h (files w) projectPath entries) w) in
       let! _ := write_file archivePath bytes in
       let! endpoint := lift (js_get config "appwriteEndpoint") in
       let! project := lift (js_get config "appwriteProject") in
       let! key := lift (js_get config "appwriteKey") in
       match client_new h endpoint project key with
       | Some e => throw e
       | None =>
           let! bucket := lift (js_get config "appwriteBucket") in
           let! content := readFileSync archivePath in
           let! _ := emit (EvUpload bucket "project.tar.gz") in
           let! file :=
             of_result (storage_createFile h bucket content "project.tar.gz") in
           let! id := lift (js_get file "$id") in
           let! endpoint := lift (js_to_string endpoint) in
           let! bucket := lift (js_to_string bucket) in
           let! id := lift (js_to_string id) in
           let! project := lift (js_to_string project) in
           let sourceUrl :=
             endpoint +:+ "/storage/buckets/" +:+ bucket +:+ "/files/" +:+ id
               +:+ "/download?project=" +:+ project in
           let! githubRepo := lift (js_get config "githubRepo") in
           let! parts := lift (call_split githubRepo) in
           let owner := nth 0 parts "undefined" in
           let repo := nth 1 parts "undefined" in
           let url :=
             "https://api.github.com/repos/" +:+ owner +:+ "/" +:+ repo
               +:+ "/dispatches" in
           let payload :=
             JObj [ ("event_type", JStr "remote-build");
                    ("client_payload",
                     JObj [ ("source_url", JStr sourceUrl);
                            ("build_id", JStr buildId);
                            ("platform", JStr (opt_platform options));
                            ("variant",
                             JStr (or_else (Some (opt_variant options))
                                     "release")) ]) ] in
           let! token := lift (js_get config "githubToken") in
           let! token := lift (js_to_string token) in
           let! _ := emit (EvDispatch url payload) in
           let! response := of_result (http_post h url token payload) in
           if negb (fst response)
           then throw (ApiError ("Request failed with status " +:+ snd response))
           else
             let! _ := rmSync tempDir archivePath in
             mret buildId
       end)
    (fun _ => process_exit 1).

End Action.

End Legacy.

(** ** Command-line arguments of the EAS-compatible build command *)

Definition initial_options : Options :=
  {| opt_path := None; opt_profile := Some "production" |}.

Definition is_flag (names : list string) (arg : string) : bool :=
  existsb (String.eqb arg) names.

(** The [for] loop over [args], from the element after the command name.  A
    flag that takes a value consumes the next element; as the last element it
    reads [undefined]. *)
Fixpoint parse_options (args : list string) (options : Options) : Options :=
  match args with
  | [] => options
  | arg :: rest =>
      if is_flag ["--path"; "-p"] arg then
        match rest with
        | value :: rest' =>
            parse_options rest' (mkOptions (Some value) (opt_profile options))
        | [] => mkOptions None (opt_profile options)
        end
      else if is_flag ["--profile"; "--eas-profile"] arg then
        match rest with
        | value :: rest' =>
            parse_options rest' (mkOptions (opt_path options) (Some value))
        | [] => mkOptions (opt_path options) None
        end
      else if is_flag ["-a"; "--app"] arg then
        match rest with
        | _ :: rest' => parse_options rest' options
        | [] => options
        end
      else if is_flag ["-v"; "--version"] arg then
        match rest with
        | _ :: rest' => parse_options rest' options
        | [] => options
        end
      else parse_options rest options
  end.

(** The script's top level on [process.argv.slice(2)]: the [build] command
    runs the pipeline, anything else prints the usage text. *)
Definition main (h : Host) (args : list string) : M (option BuildInfo) :=
  match args with
  | command :: rest =>
      if String.eqb command "build"
      then let! info := build h (parse_options rest initial_options) in
           mret (Some info)
      else mret None
  | [] => mret None
  end.

(** The profile and the project root a run of [build] works with. *)
Definition effective_profile (options : Options) : string :=
  or_else (opt_profile options) "production".

(** ** The plain command-line tool: [configure] and [config] *)

Module LegacyCli.

Record ConfigureOptions : Type := mkConfigureOptions {
  appwriteEndpoint : option string;
  appwriteProject : option string;
  appwriteKey : option string;
  appwriteBucket : option string;
  githubToken : option string;
  githubRepo : option string
}.

(** An own property of an object set by assignment: an existing member keeps
    its place, a new one comes last. *)
Fixpoint assoc_set (k : string) (x : jsval) (fields : list (string * jsval))
    : list (string * jsval) :=
  match fields with
  | [] => [(k, x)]
  | (k', v) :: rest =>
      if String.eqb k k' then (k', x) :: rest
      else (k', v) :: assoc_set k x rest
  end.

(** [config.name = x] as far as the saved document shows it: an object gets
    the member; [null] throws; a number, string, boolean or array is saved
    as it was (the assignment is dropped, or sets a member that
    [JSON.stringify] does not print). *)
Definition js_set (config : jsval) (name : string) (x : jsval)
    : outcome jsval :=
  match config with
  | JUndefined | JNull =>
      Throw (TypeError ("Cannot set properties of null: " +:+ name))
  | JObj fields => Ret (JObj (assoc_set name x fields))
  | _ => Ret config
  end.

(** [if (options.name) config.name = options.name]. *)
Definition set_if_given (name : string) (value : option string)
    (config : jsval) : outcome jsval :=
  match value with
  | Some s => if String.eqb s "" then Ret config else js_set config name (JStr s)
  | None => Ret config
  end.

(** [s.slice(-n)]: the last [n] characters, the whole string when it is
    shorter. *)
Definition slice_last (n : nat) (s : string) : string :=
  String.substring (String.length s - n) n s.

(** [value ? '***' + value.slice(-4) : undefined] for a stored secret.  A
    string has [slice]; so has an array, whose last elements are then joined
    into the text; any other truthy value has no such method. *)
Definition mask (value : jsval) : outcome jsval :=
  if negb (truthy value) then Ret JUndefined
  else match value with
       | JStr s => Ret (JStr ("***" +:+ slice_last 4 s))
       | JArr items =>
           let? text := js_to_string
                          (JArr (drop (List.length items - 4) items)) in
           Ret (JStr ("***" +:+ text))
       | _ => Throw (TypeError "slice is not a function")
       end.

Fixpoint indexed (i : nat) (items : list jsval) : list (string * jsval) :=
  match items with
  | [] => []
  | x :: rest => (pretty i, x) :: indexed (S i) rest
  end.

Fixpoint chars (i : nat) (s : string) : list (string * jsval) :=
  match s with
  | EmptyString => []
  | String c rest => (pretty i, JStr (String c EmptyString)) :: chars (S i) rest
  end.

(** The own enumerable members an object spread [{...config}] copies. *)
Definition spread (config : jsval) : list (string * jsval) :=
  match config with
  | JObj fields => fields
  | JArr items => indexed 0 items
  | JStr s => chars 0 s
  | _ => []
  end.

Section Commands.
Variable h : Host.
Variable JSON_stringify : jsval -> string.

(** [saveConfig]: the document is written over the configuration file. *)
Definition saveConfig (config : jsval) : M unit :=
  write_file (Legacy.CONFIG_PATH h) (JSON_stringify config).

(** The action of [configure]; nothing catches what it throws. *)
Definition configure (options : ConfigureOptions) : M unit :=
  let! config := Legacy.loadConfig h in
  let! config := lift (set_if_given "appwriteEndpoint" (appwriteEndpoint options) config) in
  let! config := lift (set_if_given "appwriteProject" (appwriteProject options) config) in
  let! config := lift (set_if_given "appwriteKey" (appwriteKey options) config) in
  let! config := lift (set_if_given "appwriteBucket" (appwriteBucket options) config) in
  let! config := lift (set_if_given "githubToken" (githubToken options) config) in
  let! config := lift (set_if_given "githubRepo" (githubRepo options) config) in
  saveConfig config.

(** The action of [config]: the object handed to [JSON.stringify], the two
    secrets masked. *)
Definition show_config : M jsval :=
  let! config := Legacy.loadConfig h in
  let! key := lift (js_get config "appwriteKey") in
  let! maskedKey := lift (mask key) in
  let! token := lift (js_get config "githubToken") in
  let! maskedToken := lift (mask token) in
  mret (JObj (assoc_set "githubToken" maskedToken
                (assoc_set "appwriteKey" maskedKey (spread config)))).

End Commands.

End LegacyCli.

(** ** A sample host and sample documents

    Used to run the program on concrete inputs.  Paths are joined with a
    slash.  The archiver lists the files beneath the root; like the directory
    walker of the archiver library it does not report a root that is missing,
    the archive is then empty, and it reports a root that is a regular file.
    The three switches make the archiver, the storage service and the
    dispatch request succeed or fail; the clock advances between readings. *)

Definition files_beneath (fs : gmap string node) (root : string) : list string :=
  List.filter (String.prefix (root +:+ "/")) (map fst (map_to_list fs)).

Definition sample_config : jsval :=
  JObj [ ("appwriteEndpoint", JStr "https://cloud.appwrite.io/v1");
         ("appwriteProject", JStr "proj");
         ("appwriteKey", JStr "key");
         ("appwriteBucket", JStr "bucket");
         ("githubToken", JStr "token");
         ("githubRepo", JStr "dev/builds") ].

Definition sample_eas : jsval :=
  JObj [ ("build",
          JObj [ ("development", JObj [ ("developmentClient", JBool true) ]);
                 ("preview",
                  JObj [ ("distribution", JStr "internal");
                         ("android", JObj [ ("buildType", JStr "apk") ]) ]);
                 ("production",
                  JObj [ ("autoIncrement", JBool true);
                         ("android", JObj [ ("buildType", JStr "aab") ]) ]) ]) ].

Definition sample_parse (text : string) : option jsval :=
  if String.eqb text "{}" then Some (JObj [])
  else if String.eqb text "<config>" then Some sample_config
  else if String.eqb text "<eas>" then Some sample_eas
  else None.

Definition object_prototype : list string :=
  [ "constructor"; "toString"; "valueOf"; "hasOwnProperty"; "__proto__" ].

Definition sample_host (archive_ok upload_ok dispatch_ok : bool) : Host :=
  {| path_join := fun a b => a +:+ "/" +:+ b;
     path_basename := fun p => List.last (split_on "/" p) "";
     homedir := "/home/dev";
     tmpdir := "/tmp";
     cwd := "/work/app";
     JSON_parse := sample_parse;
     inherited := fun _ k => existsb (String.eqb k) object_prototype;
     archiver_tar := fun fs root _ =>
       if archive_ok then
         match fs !! root with
         | Some (File _) => inl (FsError "ENOTDIR" root)
         | _ => inr (String.concat "," (files_beneath fs root))
         end
       else inl (LibError "archiver: EACCES");
     archiver_written := fun _ _ _ => "";
     client_new := fun _ _ _ => None;
     storage_createFile := fun _ _ _ =>
       if upload_ok then inr (JObj [ ("$id", JStr "6956460a0030d25a9af6") ])
       else inl (ApiError "storage: 401");
     http_post := fun _ _ _ =>
       if dispatch_ok then inr (true, "204 No Content")
       else inr (false, "404 Not Found");
     readdirSync := fun fs dir =>
       match fs !! dir with
       | Some Dir => inr (map (fun p => List.last (split_on "/" p) "")
                            (files_beneath fs dir))
       | _ => inl (FsError "ENOENT" dir)
       end;
     tar_create := fun fs root entries => inr (String.concat "," entries);
     clock_after := fun t => t + 2417 |}.

Definition sample_world (fs : list (string * node)) : World :=
  {| files := list_to_map fs; clock := 1767264765206; trace := [] |}.

Definition stored_config : string * node :=
  ("/home/dev/.build-service.json", File "<config>").

Definition empty_config : string * node :=
  ("/home/dev/.build-service.json", File "{}").

Definition sample_project : list (string * node) :=
  [ ("/work/app", Dir);
    ("/work/app/eas.json", File "<eas>");
    ("/work/app/App.js", File "export default App") ].

Definition default_options : Options :=
  {| opt_path := None; opt_profile := None |}.

(** ** Vocabulary of the statements *)

Definition is_string (v : jsval) : bool :=
  match v with
  | JStr _ => true
  | _ => false
  end.

(** The template literal [`${v}`] can be evaluated. *)
Definition renders (v : jsval) : bool :=
  match js_to_string v with
  | Ret _ => true
  | _ => false
  end.

(** The build type and the explicit command a profile declares in its
    [android] block ([undefined] when the block is missing or falsy). *)
Definition declared_buildType (profileConfig : jsval) : jsval :=
  js_field (js_field profileConfig "android") "buildType".

Definition declared_gradleCommand (profileConfig : jsval) : jsval :=
  js_field (js_field profileConfig "android") "gradleCommand".

(** The two log lines of the [android] block can be printed: a declared build
    type is a string, a declared command can be rendered. *)
Definition printable_android (profileConfig : jsval) : bool :=
  (if truthy (declared_buildType profileConfig)
   then is_string (declared_buildType profileConfig) else true)
  && (if truthy (declared_gradleCommand profileConfig)
      then renders (declared_gradleCommand profileConfig) else true).

(** The four command names derived from variant and build type. *)
Definition canonical_commands : list jsval :=
  [ JStr "assembleRelease"; JStr "assembleDebug";
    JStr "bundleRelease"; JStr "bundleDebug" ].

Definition recognized_buildType (v : jsval) : bool :=
  strict_eq_str v "apk" || strict_eq_str v "aab".


(** The process is not ended by [process.exit]. *)
Definition not_exit {A} (o : outcome A) : Prop :=
  match o with
  | Exit _ => False
  | _ => True
  end.

(** The reading of the build-type rule under which a value outside
    {apk, aab} is rejected and the default takes its place. *)
Definition unrecognized_buildType_degrades : Prop :=
  forall (profile : string) (pc : jsval),
    truthy (declared_buildType pc) = true ->
    recognized_buildType (declared_buildType pc) = false ->
    exists cfg,
      mapProfileToConfig profile pc = Ret cfg /\ buildType cfg = JStr "apk".

(** The reading of the auto-increment rule under which the flag is the
    truthiness of the profile's value. *)
Definition autoIncrement_is_truthiness : Prop :=
  forall (profile : string) (pc : jsval) (cfg : BuildConfig),
    truthy pc = true ->
    mapProfileToConfig profile pc = Ret cfg ->
    autoIncrement cfg = truthy (js_field pc "autoIncrement").

(** The world after more events. *)
Definition log (w : World) (t : list event) : World :=
  mkWorld (files w) (clock w) (trace w ++ t).

(** Every line of a [.buildignore] is blank or a comment. *)
Definition only_blank_or_comment (content : string) : Prop :=
  Forall (fun line => trim line = "" \/ starts_with "#" (trim line) = true)
    (split_on newline content).

(** The reading of the override law under which the patterns of an existing
    [.buildignore] always take the place of the built-in ones. *)
Definition override_always_replaces : Prop :=
  forall (h : Host) (projectPath : string) (excludePatterns : list string)
         (w : World) (content : string),
    output_path h (clock w) <> path_join h projectPath ".buildignore" ->
    files w !! path_join h projectPath ".buildignore" = Some (File content) ->
    In (EvArchive projectPath (parse_buildignore content ++ excludePatterns))
       (trace (snd (packageProject h projectPath excludePatterns w))).

Definition no_network (t : list event) : Prop :=
  forallb (fun e => negb (is_network e)) t = true.

Definition no_unlink (t : list event) : Prop :=
  forallb (fun e => negb (is_unlink e)) t = true.

(** An event that is neither a network call nor a deletion. *)
Definition is_local (e : event) : bool :=
  negb (is_network e) && negb (is_unlink e).

(** The process ends, if it does, with status 1. *)
Definition ok_exit {A} (o : outcome A) : Prop :=
  match o with
  | Exit c => c = 1
  | _ => True
  end.

(** A step that only adds events: the files are as before. *)
Definition only_logs {A} (P : list event -> Prop) (m : M A) (w : World) : Prop :=
  not_exit (fst (m w))
  /\ files (snd (m w)) = files w
  /\ exists t, trace (snd (m w)) = trace w ++ t /\ P t.

(** The project root of a run, and where its archive is written. *)
Definition project_root (h : Host) (options : Options) : string :=
  or_else (opt_path options) (cwd h).

(** The archiver completed an archive of the root and it is on disk. *)
Definition archive_on_disk (h : Host) (root : string) (w w' : World) : Prop :=
  exists fs ignore bytes,
    archiver_tar h fs root ignore = inr bytes
    /\ files w' !! output_path h (clock w) = Some (File bytes).

Definition archiver_completed (h : Host) (root : string) : Prop :=
  exists fs ignore bytes, archiver_tar h fs root ignore = inr bytes.

(** The six fields of the stored configuration. *)
Definition required_fields : list string :=
  [ "appwriteEndpoint"; "appwriteProject"; "appwriteKey"; "appwriteBucket";
    "githubToken"; "githubRepo" ].

(** A computation only adds to the trace. *)
Definition grows {A} (m : M A) : Prop :=
  forall w, exists t, trace (snd (m w)) = trace w ++ t.

(** The configuration file holds the object [fields]; when there is no file
    the tool starts from the empty object. *)
Definition stored_object (h : Host) (w : World)
    (fields : list (string * jsval)) : Prop :=
  (files w !! Legacy.CONFIG_PATH h = None /\ fields = [])
  \/ exists text,
       files w !! Legacy.CONFIG_PATH h = Some (File text)
       /\ JSON_parse h text = Some (JObj fields).

(** The patterns packaging reads from the project's [.buildignore] on a file
    system: none when there is no such file. *)
Definition reads_patterns (h : Host) (root : string)
    (fs : gmap string node) (patterns : list string) : Prop :=
  (fs !! path_join h root ".buildignore" = None /\ patterns = [])
  \/ exists content,
       fs !! path_join h root ".buildignore" = Some (File content)
       /\ patterns = parse_buildignore content.

(** An option of [configure] that is given and not empty. *)
Definition given (value : option string) : option string :=
  match value with
  | Some s => if String.eqb s "" then None else Some s
  | None => None
  end.

(** The option of [configure] that sets the field [name], if any. *)
Definition given_value (options : LegacyCli.ConfigureOptions) (name : string)
    : option string :=
  if String.eqb name "githubRepo" then given (LegacyCli.githubRepo options)
  else if String.eqb name "githubToken" then given (LegacyCli.githubToken options)
  else if String.eqb name "appwriteBucket"
       then given (LegacyCli.appwriteBucket options)
  else if String.eqb name "appwriteKey" then given (LegacyCli.appwriteKey options)
  else if String.eqb name "appwriteProject"
       then given (LegacyCli.appwriteProject options)
  else if String.eqb name "appwriteEndpoint"
       then given (LegacyCli.appwriteEndpoint options)
  else None.

Definition is_upload (e : event) : bool :=
  match e with
  | EvUpload _ _ => true
  | _ => false
  end.

Definition is_dispatch (e : event) : bool :=
  match e with
  | EvDispatch _ _ => true
  | _ => false
  end.

(** The network calls among some events, in order. *)
Definition network_calls (t : list event) : list event :=
  List.filter is_network t.

(** A step that makes at most one network call, of the given kind, and
    exactly one when it returns. *)
Definition sends {A} (kind : event -> bool) (m : M A) (w : World) : Prop :=
  not_exit (fst (m w))
  /\ files (snd (m w)) = files w
  /\ exists t,
       trace (snd (m w)) = trace w ++ t
       /\ match fst (m w) with
          | Ret _ => exists e, kind e = true /\ network_calls t = [e]
          | _ => network_calls t = []
                 \/ exists e, kind e = true /\ network_calls t = [e]
          end.


(** The reading of the cleanup rule under which a run that fails after the
    upload was started has tried to delete the archive. *)
Definition failed_run_unlinks_archive : Prop :=
  forall (h : Host) (options : Options) (w : World),
    fst (build h options w) = Exit 1 ->
    existsb is_network (trace (snd (build h options w))) = true ->
    existsb is_unlink (trace (snd (build h options w))) = true.

(* Close the summary of a step that made at most one network call. *)
Ltac one_call := eexists; split; [|reflexivity]; reflexivity.

Ltac sent :=
  simpl;
  repeat split; try done;
  first [ exists []; split; [by rewrite app_nil_r | by left]
        | eexists; split;
          [ by rewrite <- ?app_assoc
          | first [ by left | right; one_call | one_call ] ] ].

(* Closes the summary of a step that stops after adding some events. *)
Ltac logged :=
  simpl;
  repeat split; try done;
  first [ by (exists []; rewrite app_nil_r)
        | eexists; split; [by rewrite <- ?app_assoc | done] ].

(** ** ProfileResolver and CommandDeriver *)

Lemma falsy_has_no_truthy_member (v : jsval) (name : string) :
  truthy v = false -> truthy (js_field v name) = false.
Proof.
  unfold js_field.
  destruct v as [| |b|n|s|l|f|]; simpl; try done.
  destruct s; simpl; [|done]. intros _.
  destruct (String.eqb name "length"); [done|].
  by destruct (parse_index name) as [[|i]|].
Qed.

Lemma mapProfileToConfig_falsy (profile : string) (pc : jsval) :
  truthy pc = false -> mapProfileToConfig profile pc = Ret default_config.
Proof. intros H. unfold mapProfileToConfig. by rewrite H. Qed.

(** The configuration a truthy profile is mapped to, field by field. *)
Lemma mapProfileToConfig_truthy (profile : string) (pc : jsval) :
  truthy pc = true ->
  printable_android pc = true ->
  mapProfileToConfig profile pc =
    Ret {| variant :=
             if strict_eq_true (js_field pc "developmentClient")
             then "debug" else "release";
           buildType :=
             if truthy (declared_buildType pc)
             then declared_buildType pc else JStr "apk";
           gradleCommand :=
             if truthy (declared_gradleCommand pc)
             then declared_gradleCommand pc else JNull;
           env := if truthy (js_field pc "env")
                  then js_field pc "env" else JObj [];
           autoIncrement := strict_eq_true (js_field pc "autoIncrement");
           distribution :=
             if truthy (js_field pc "distribution")
             then js_field pc "distribution" else JStr "internal" |}.
Proof.
  intros Hpc Hp. unfold mapProfileToConfig, printable_android in *.
  rewrite Hpc. simpl negb. cbv iota.
  unfold declared_buildType, declared_gradleCommand in *.
  destruct (truthy (js_field pc "android")) eqn:Ha.
  - unfold map_android.
    destruct (truthy (js_field (js_field pc "android") "buildType")) eqn:Hb;
      destruct (truthy (js_field (js_field pc "android") "gradleCommand")) eqn:Hg;
      apply andb_prop in Hp as [Hs Hr]; simpl.
    + destruct (js_field (js_field pc "android") "buildType"); try done.
      unfold renders in Hr. simpl.
      destruct (js_to_string (js_field (js_field pc "android") "gradleCommand"));
        try done. simpl.
      by repeat match goal with |- context [if ?b then _ else _] => destruct b end.
    + destruct (js_field (js_field pc "android") "buildType"); try done. simpl.
      by repeat match goal with |- context [if ?b then _ else _] => destruct b end.
    + unfold renders in Hr.
      destruct (js_to_string (js_field (js_field pc "android") "gradleCommand"));
        try done. simpl.
      by repeat match goal with |- context [if ?b then _ else _] => destruct b end.
    + by repeat match goal with |- context [if ?b then _ else _] => destruct b end.
  - rewrite !(falsy_has_no_truthy_member _ _ Ha). simpl.
    by repeat match goal with |- context [if ?b then _ else _] => destruct b end.
Qed.

Lemma js_to_string_never_exits (v : jsval) : not_exit (js_to_string v).
Proof.
  revert v. fix IH 1. intros [| |[]|n|s|items|fields|]; simpl; try done.
  - match goal with
    | |- not_exit (?f true items) =>
        cut (forall l b, not_exit (f b l)); [intros H; apply H|]; clear items
    end.
    fix IHl 1. intros [|x rest] first; [done|].
    pose proof (IH x) as Hx. pose proof (IHl rest false) as Hr.
    destruct x as [| |[]|?|?|?|?|]; simpl in *;
      repeat match goal with
             | |- context [obind ?o _] => destruct o; simpl; try done
             end.
  - by destruct (assoc "toString" fields).
Qed.

Lemma js_to_string_not_exit (v : jsval) (c : Z) : js_to_string v <> Exit c.
Proof.
  pose proof (js_to_string_never_exits v) as H. intros E. by rewrite E in H.
Qed.

Lemma map_android_never_exits (android : jsval) (config : BuildConfig) :
  not_exit (map_android android config).
Proof.
  unfold map_android.
  pose proof (js_to_string_never_exits (js_field android "gradleCommand")) as Hg.
  destruct (truthy (js_field android "buildType")); simpl.
  - destruct (js_field android "buildType"); simpl; try done.
    destruct (truthy (js_field android "gradleCommand")); simpl; [|done].
    destruct (js_to_string (js_field android "gradleCommand")); simpl; done.
  - destruct (truthy (js_field android "gradleCommand")); simpl; [|done].
    destruct (js_to_string (js_field android "gradleCommand")); simpl; done.
Qed.

Lemma mapProfileToConfig_never_exits (profile : string) (pc : jsval) :
  not_exit (mapProfileToConfig profile pc).
Proof.
  unfold mapProfileToConfig. destruct (truthy pc); simpl; [|done].
  destruct (truthy (js_field pc "android")); simpl; [|done].
  match goal with
  | |- context [map_android ?a ?k] =>
      pose proof (map_android_never_exits a k); by destruct (map_android a k)
  end.
Qed.

(** A configuration that comes out of the resolver has a string build type
    and one of the two variants. *)
Lemma map_android_buildType (android : jsval) (config cfg : BuildConfig) :
  is_string (buildType config) = true ->
  map_android android config = Ret cfg ->
  is_string (buildType cfg) = true /\ variant cfg = variant config.
Proof.
  unfold map_android. intros Hs.
  destruct (truthy (js_field android "buildType")); simpl.
  - destruct (js_field android "buildType"); simpl; try done.
    destruct (truthy (js_field android "gradleCommand")); simpl.
    + destruct (js_to_string (js_field android "gradleCommand")); simpl; try done.
      by intros [= <-].
    + by intros [= <-].
  - destruct (truthy (js_field android "gradleCommand")); simpl.
    + destruct (js_to_string (js_field android "gradleCommand")); simpl; try done.
      by intros [= <-].
    + by intros [= <-].
Qed.

Lemma mapProfileToConfig_wellformed (profile : string) (pc : jsval)
    (cfg : BuildConfig) :
  mapProfileToConfig profile pc = Ret cfg ->
  is_string (buildType cfg) = true
  /\ (variant cfg = "release" \/ variant cfg = "debug").
Proof.
  unfold mapProfileToConfig. destruct (truthy pc); simpl.
  - destruct (truthy (js_field pc "android")) eqn:Ha; simpl.
    + match goal with
      | |- context [map_android ?a ?k] =>
          pose proof (map_android_buildType a k) as Hm;
          destruct (map_android a k) as [cfg'| |]; simpl; try done
      end.
      intros [= <-].
      destruct (Hm cfg') as [Hs Hv]; [|done|].
      { by repeat match goal with |- context [if ?b then _ else _] => destruct b end. }
      split.
      * by repeat match goal with |- context [if ?b then _ else _] => destruct b end.
      * assert (variant cfg' = "release" \/ variant cfg' = "debug") as Hv'.
        { rewrite Hv.
          repeat match goal with |- context [if ?b then _ else _] => destruct b end;
            simpl; auto. }
        by repeat match goal with |- context [if ?b then _ else _] => destruct b end.
    + intros [= <-].
      repeat match goal with |- context [if ?b then _ else _] => destruct b end;
        simpl; auto.
  - intros [= <-]. simpl. auto.
Qed.

Lemma truthy_member_of_truthy (v : jsval) (name : string) :
  truthy (js_field v name) = true -> truthy v = true.
Proof.
  intros H. destruct (truthy v) eqn:E; [done|].
  by rewrite (falsy_has_no_truthy_member _ name E) in H.
Qed.

Lemma strict_eq_true_truthy (v : jsval) :
  strict_eq_true v = true -> truthy v = true.
Proof. by destruct v as [| |[]|?|?|?|?|]. Qed.

(** The resolver returns whenever the two log lines of the [android] block
    can be printed. *)
Lemma mapProfileToConfig_returns (profile : string) (pc : jsval) :
  printable_android pc = true ->
  exists cfg,
    mapProfileToConfig profile pc = Ret cfg
    /\ autoIncrement cfg = strict_eq_true (js_field pc "autoIncrement")
    /\ buildType cfg =
         (if truthy (declared_buildType pc)
          then declared_buildType pc else JStr "apk")
    /\ gradleCommand cfg =
         (if truthy (declared_gradleCommand pc)
          then declared_gradleCommand pc else JNull).
Proof.
  intros Hp. destruct (truthy pc) eqn:Hpc.
  - eexists. split; [by apply mapProfileToConfig_truthy|]. done.
  - exists default_config. split; [by apply mapProfileToConfig_falsy|].
    unfold declared_buildType, declared_gradleCommand.
    pose proof (falsy_has_no_truthy_member pc "android" Hpc) as Ha.
    rewrite !(falsy_has_no_truthy_member _ _ Ha). simpl.
    destruct (strict_eq_true (js_field pc "autoIncrement")) eqn:E; [|done].
    apply strict_eq_true_truthy in E.
    by rewrite (falsy_has_no_truthy_member _ _ Hpc) in E.
Qed.

Lemma derived_command_canonical (config : BuildConfig) :
  variant config = "release" \/ variant config = "debug" ->
  truthy (gradleCommand config) = false ->
  In (getGradleCommand config) canonical_commands.
Proof.
  intros Hv Hg. unfold getGradleCommand. rewrite Hg.
  destruct Hv as [-> | ->];
    destruct (strict_eq_str (buildType config) "aab"); simpl; auto.
Qed.

(** Every configuration the resolver returns has one of the two variants, so
    its derived command is one of the four. *)
Corollary derived_command_of_resolved (profile : string) (pc : jsval)
    (cfg : BuildConfig) :
  mapProfileToConfig profile pc = Ret cfg ->
  truthy (gradleCommand cfg) = false ->
  In (getGradleCommand cfg) canonical_commands.
Proof.
  intros H. apply mapProfileToConfig_wellformed in H as [_ Hv].
  by apply derived_command_canonical.
Qed.

(** C1. For a configuration without explicit command, [getGradleCommand]
    returns one of [assembleRelease], [assembleDebug], [bundleRelease],
    [bundleDebug]; for a configuration whose [gradleCommand] is set it returns
    that value unchanged.  The function is total: it has no failing case. *)
Theorem getGradleCommand_canonical_or_explicit (config : BuildConfig) :
  variant config = "release" \/ variant config = "debug" ->
  (truthy (gradleCommand config) = false ->
   In (getGradleCommand config) canonical_commands)
  /\ (truthy (gradleCommand config) = true ->
      getGradleCommand config = gradleCommand config).
Proof.
  intros Hv. split.
  - by apply derived_command_canonical.
  - unfold getGradleCommand. by intros ->.
Qed.

Lemma getGradleCommand_canonical_or_explicit_witness :
  In (getGradleCommand default_config) canonical_commands.
Proof.
  apply (getGradleCommand_canonical_or_explicit default_config);
    [left; reflexivity | reflexivity].
Defined.

(** C2, as stated, fails: the profile [{android: {buildType: "ipa"}}] is
    mapped to a configuration whose build type is ["ipa"]. *)
Lemma unrecognized_buildType_kept : ~ unrecognized_buildType_degrades.
Proof.
  intros H.
  destruct (H "preview" (JObj [("android", JObj [("buildType", JStr "ipa")])]))
    as (cfg & Hm & Hb); [reflexivity | reflexivity |].
  vm_compute in Hm. injection Hm as <-. discriminate Hb.
Qed.

(** C2, amended. A build type that is a non-empty string is copied verbatim,
    recognised or not: the resolver returns a configuration carrying it.
    Without explicit command the derived command is [bundle<Variant>] exactly
    when the string is ["aab"], and [assemble<Variant>] for any other. *)
Theorem buildType_copied_verbatim (profile : string) (pc : jsval) (s : string) :
  declared_buildType pc = JStr s ->
  s <> "" ->
  (truthy (declared_gradleCommand pc) = true ->
   renders (declared_gradleCommand pc) = true) ->
  exists cfg,
    mapProfileToConfig profile pc = Ret cfg
    /\ buildType cfg = JStr s
    /\ (truthy (gradleCommand cfg) = false ->
        getGradleCommand cfg =
          JStr ((if String.eqb s "aab" then "bundle" else "assemble")
                +:+ capitalize (variant cfg))).
Proof.
  intros Hb Hs Hg.
  assert (truthy (declared_buildType pc) = true) as Ht.
  { rewrite Hb. simpl. apply negb_true_iff. by apply String.eqb_neq. }
  destruct (mapProfileToConfig_returns profile pc) as (cfg & Hm & _ & Hbt & _).
  { unfold printable_android. rewrite Ht, Hb. simpl.
    destruct (truthy (declared_gradleCommand pc)); [by apply Hg|done]. }
  exists cfg. rewrite Ht, Hb in Hbt. repeat split; [done..|].
  intros Hn. unfold getGradleCommand. rewrite Hn, Hbt. simpl.
  by destruct (String.eqb s "aab").
Qed.

Lemma buildType_copied_verbatim_witness :
  exists cfg,
    mapProfileToConfig "preview"
      (JObj [("android", JObj [("buildType", JStr "ipa")])]) = Ret cfg
    /\ buildType cfg = JStr "ipa"
    /\ (truthy (gradleCommand cfg) = false ->
        getGradleCommand cfg = JStr "assembleRelease").
Proof.
  destruct (buildType_copied_verbatim "preview"
              (JObj [("android", JObj [("buildType", JStr "ipa")])]) "ipa")
    as (cfg & Hm & Hb & Hc); [reflexivity | discriminate | discriminate |].
  exists cfg. repeat split; [done..|].
  intros Hn. rewrite (Hc Hn). vm_compute in Hm. by injection Hm as <-.
Defined.



(** C8, as stated, fails: with [autoIncrement: 1] the profile's value is
    truthy and the flag of the configuration stays [false]. *)
Lemma autoIncrement_one_is_dropped : ~ autoIncrement_is_truthiness.
Proof.
  intros H.
  specialize (H "production" (JObj [("autoIncrement", JNum 1)])
                default_config eq_refl eq_refl).
  discriminate H.
Qed.

(** C8, amended. The flag of the configuration is [true] exactly when the
    profile's [autoIncrement] is the boolean [true]; any other value, a
    truthy one such as [1] or ["yes"] included, leaves it [false]. *)
Theorem autoIncrement_only_literal_true (profile : string) (pc : jsval) :
  printable_android pc = true ->
  exists cfg,
    mapProfileToConfig profile pc = Ret cfg
    /\ autoIncrement cfg = strict_eq_true (js_field pc "autoIncrement").
Proof.
  intros Hp.
  destruct (mapProfileToConfig_returns profile pc Hp) as (cfg & Hm & Ha & _).
  by exists cfg.
Qed.

Lemma autoIncrement_only_literal_true_witness :
  exists cfg,
    mapProfileToConfig "production" (JObj [("autoIncrement", JStr "yes")])
      = Ret cfg
    /\ autoIncrement cfg = false.
Proof.
  apply (autoIncrement_only_literal_true "production"
           (JObj [("autoIncrement", JStr "yes")])).
  reflexivity.
Defined.

(** ** Running the file-system primitives *)

Lemma existsSync_run (p : string) (w : World) :
  existsSync p w =
    (Ret (match files w !! p with Some _ => true | None => false end),
     log w [EvExists p]).
Proof. reflexivity. Qed.

Lemma readFileSync_run (p : string) (w : World) :
  readFileSync p w =
    (match files w !! p with
     | Some (File content) => Ret content
     | Some Dir => Throw (FsError "EISDIR" p)
     | None => Throw (FsError "ENOENT" p)
     end, log w [EvRead p]).
Proof.
  unfold readFileSync, mbind, emit, log. simpl.
  by destruct (files w !! p) as [[]|].
Qed.

Lemma log_log (w : World) (t u : list event) : log (log w t) u = log w (t ++ u).
Proof. unfold log. simpl. by rewrite <- app_assoc. Qed.

(** ** ProfileResolver: the profile document *)

Lemma loadEasConfig_run (h : Host) (projectPath : string) (w : World) :
  let easJsonPath := path_join h projectPath "eas.json" in
  loadEasConfig h projectPath w =
    match files w !! easJsonPath with
    | None => (Ret JNull, log w [EvExists easJsonPath])
    | Some (File text) =>
        (Ret (default JNull (JSON_parse h text)),
         log w [EvExists easJsonPath; EvRead easJsonPath])
    | Some Dir => (Ret JNull, log w [EvExists easJsonPath; EvRead easJsonPath])
    end.
Proof.
  intros easJsonPath. unfold loadEasConfig. fold easJsonPath.
  unfold mbind at 1. rewrite existsSync_run.
  destruct (files w !! easJsonPath) as [[text|]|] eqn:E; cbn [negb];
    cbv beta iota; [| |done].
  - unfold try_catch, mbind. rewrite readFileSync_run. simpl files.
    rewrite E. rewrite log_log. simpl app. unfold json_parse.
    by destruct (JSON_parse h text).
  - unfold try_catch, mbind. rewrite readFileSync_run. simpl files.
    rewrite E. by rewrite log_log.
Qed.

(** C4. When the profile document is absent, cannot be read or parsed, or
    has no member of the requested name in its [build] collection, the
    resolver returns the default configuration (release, apk, internal, no
    auto-increment, empty environment, no explicit command); it does not
    throw and does not end the process. *)
Theorem resolve_defaults (h : Host) (projectPath profile : string) (w : World) :
  files w !! path_join h projectPath "eas.json" = None
  \/ files w !! path_join h projectPath "eas.json" = Some Dir
  \/ (exists text,
        files w !! path_join h projectPath "eas.json" = Some (File text)
        /\ JSON_parse h text = None)
  \/ (exists text doc,
        files w !! path_join h projectPath "eas.json" = Some (File text)
        /\ JSON_parse h text = Some doc
        /\ own_property (js_get_opt doc "build") profile = None) ->
  fst (resolve h projectPath profile w) = Ret default_config.
Proof.
  intros H. unfold resolve, mbind. rewrite loadEasConfig_run.
  destruct H as [-> | [-> | [(text & -> & ->) | (text & doc & -> & -> & Hn)]]];
    try reflexivity.
  simpl default. unfold js_index_opt. rewrite Hn.
  destruct (js_get_opt doc "build"); try reflexivity;
    by destruct (inherited h _ profile).
Qed.

Lemma resolve_defaults_witness :
  fst (resolve (sample_host true true true) "/work/app" "staging"
         (sample_world sample_project)) = Ret default_config.
Proof.
  apply resolve_defaults. right. right. right.
  exists "<eas>", sample_eas. repeat split; reflexivity.
Defined.

(** ** IgnorePolicy and Packager *)

Lemma parse_buildignore_blank (content : string) :
  only_blank_or_comment content -> parse_buildignore content = [].
Proof.
  unfold only_blank_or_comment, parse_buildignore.
  induction (split_on newline content) as [|line lines IH]; [done|].
  intros H. apply Forall_cons in H as [Hl Hr]. simpl.
  destruct Hl as [-> | ->]; simpl.
  - by apply IH.
  - rewrite andb_false_r. by apply IH.
Qed.

Lemma all_excludes_override (patterns excludePatterns : list string) :
  patterns <> [] ->
  all_excludes patterns excludePatterns = patterns ++ excludePatterns.
Proof. by destruct patterns. Qed.

Lemma all_excludes_override_only (patterns excludePatterns : list string) :
  all_excludes patterns excludePatterns = patterns ++ excludePatterns ->
  patterns <> [].
Proof.
  intros H ->. unfold all_excludes in H. simpl in H.
  apply (f_equal (@List.length string)) in H. simpl in H. lia.
Qed.

Lemma read_buildignore_run (h : Host) (projectPath : string) (w : World) :
  let buildIgnorePath := path_join h projectPath ".buildignore" in
  read_buildignore h projectPath w =
    match files w !! buildIgnorePath with
    | None => (Ret [], log w [EvExists buildIgnorePath])
    | Some (File content) =>
        (Ret (parse_buildignore content),
         log w [EvExists buildIgnorePath; EvRead buildIgnorePath])
    | Some Dir =>
        (Throw (FsError "EISDIR" buildIgnorePath),
         log w [EvExists buildIgnorePath; EvRead buildIgnorePath])
    end.
Proof.
  intros bi. unfold read_buildignore. fold bi.
  unfold mbind at 1. rewrite existsSync_run.
  destruct (files w !! bi) as [[content|]|] eqn:E; cbv beta iota; [| |done].
  - unfold mbind. rewrite readFileSync_run. simpl files.
    rewrite E. by rewrite log_log.
  - unfold mbind. rewrite readFileSync_run. simpl files.
    rewrite E. by rewrite log_log.
Qed.

Lemma run_archiver_run (h : Host) (projectPath outputPath : string)
    (allExcludes : list string) (w : World) :
  run_archiver h projectPath outputPath allExcludes w =
    match archiver_tar h (files w) projectPath allExcludes with
    | inr bytes =>
        (Ret outputPath,
         mkWorld (<[outputPath := File bytes]> (files w)) (clock w)
           (trace w ++ [EvArchive projectPath allExcludes]))
    | inl e =>
        (Throw e,
         mkWorld
           (<[outputPath :=
                File (archiver_written h (files w) projectPath allExcludes)]>
              (files w))
           (clock w) (trace w ++ [EvArchive projectPath allExcludes]))
    end.
Proof.
  unfold run_archiver, mbind, emit, write_file, throw, mret.
  simpl. by destruct (archiver_tar h (files w) projectPath allExcludes).
Qed.

Lemma run_archiver_trace (h : Host) (projectPath outputPath : string)
    (allExcludes : list string) (w : World) :
  trace (snd (run_archiver h projectPath outputPath allExcludes w)) =
    trace w ++ [EvArchive projectPath allExcludes].
Proof.
  rewrite run_archiver_run.
  by destruct (archiver_tar h (files w) projectPath allExcludes).
Qed.

(** The world in which [.buildignore] is looked up: the output stream has
    been opened. *)
Lemma packageProject_run (h : Host) (projectPath : string)
    (excludePatterns : list string) (w : World) :
  let outputPath := output_path h (clock w) in
  let w1 := mkWorld (<[outputPath := File ""]> (files w))
              (clock_after h (clock w)) (trace w ++ [EvCreate outputPath]) in
  packageProject h projectPath excludePatterns w =
    match read_buildignore h projectPath w1 with
    | (Ret patterns, w2) =>
        run_archiver h projectPath outputPath
          (all_excludes patterns excludePatterns) w2
    | (Throw e, w2) => (Throw e, w2)
    | (Exit c, w2) => (Exit c, w2)
    end.
Proof. reflexivity. Qed.

(** The events of packaging when [.buildignore] is a file. *)
Lemma packageProject_trace_with_file (h : Host) (projectPath : string)
    (excludePatterns : list string) (w : World) (content : string) :
  output_path h (clock w) <> path_join h projectPath ".buildignore" ->
  files w !! path_join h projectPath ".buildignore" = Some (File content) ->
  trace (snd (packageProject h projectPath excludePatterns w)) =
    trace w ++
      [ EvCreate (output_path h (clock w));
        EvExists (path_join h projectPath ".buildignore");
        EvRead (path_join h projectPath ".buildignore");
        EvArchive projectPath
          (all_excludes (parse_buildignore content) excludePatterns) ].
Proof.
  intros Hne Hf. rewrite packageProject_run, read_buildignore_run. simpl files.
  rewrite lookup_insert_ne by done. rewrite Hf.
  rewrite run_archiver_trace. unfold log. simpl trace.
  by rewrite <- !app_assoc.
Qed.

(** C5, as stated, fails: a [.buildignore] holding only a comment leaves the
    built-in patterns in force. *)
Lemma comment_only_buildignore_keeps_defaults : ~ override_always_replaces.
Proof.
  intros H.
  specialize (H (sample_host true true true) "/work/app" ["secrets/**"]
                (sample_world
                   (("/work/app/.buildignore", File "# nothing to ignore")
                    :: sample_project))
                "# nothing to ignore").
  vm_compute in H.
  destruct H as [H|[H|[H|[H|[]]]]]; try discriminate; try done.
Qed.

(** C5, amended. When [.buildignore] exists and at least one pattern is
    parsed from it, the ignore list handed to the archiver is exactly the
    parsed patterns followed by the caller's patterns; the built-in patterns
    are not applied. *)
Theorem override_replaces_defaults (h : Host) (projectPath : string)
    (excludePatterns : list string) (w : World) (content : string) :
  output_path h (clock w) <> path_join h projectPath ".buildignore" ->
  files w !! path_join h projectPath ".buildignore" = Some (File content) ->
  parse_buildignore content <> [] ->
  trace (snd (packageProject h projectPath excludePatterns w)) =
    trace w ++
      [ EvCreate (output_path h (clock w));
        EvExists (path_join h projectPath ".buildignore");
        EvRead (path_join h projectPath ".buildignore");
        EvArchive projectPath (parse_buildignore content ++ excludePatterns) ].
Proof.
  intros Hne Hf Hp.
  rewrite (packageProject_trace_with_file _ _ _ _ _ Hne Hf).
  by rewrite all_excludes_override.
Qed.

Lemma override_replaces_defaults_witness :
  trace (snd (packageProject (sample_host true true true) "/work/app"
                ["secrets/**"]
                (sample_world
                   (("/work/app/.buildignore", File "dist/") :: sample_project))))
  = [ EvCreate "/tmp/build-1767264765206.tar.gz";
      EvExists "/work/app/.buildignore";
      EvRead "/work/app/.buildignore";
      EvArchive "/work/app" ["dist/**"; "secrets/**"] ].
Proof.
  apply (override_replaces_defaults (sample_host true true true) "/work/app"
           ["secrets/**"]
           (sample_world
              (("/work/app/.buildignore", File "dist/") :: sample_project))
           "dist/");
    [vm_compute; discriminate | reflexivity | vm_compute; discriminate].
Defined.

(** C10. When [.buildignore] exists and every line of it is blank or a
    comment, the ignore list handed to the archiver is the built-in list
    followed by the caller's patterns; and the parsed patterns stand in for
    the built-in ones only if there is at least one of them. *)
Theorem empty_buildignore_falls_back (h : Host) (projectPath : string)
    (excludePatterns : list string) (w : World) (content : string) :
  output_path h (clock w) <> path_join h projectPath ".buildignore" ->
  files w !! path_join h projectPath ".buildignore" = Some (File content) ->
  only_blank_or_comment content ->
  trace (snd (packageProject h projectPath excludePatterns w)) =
    trace w ++
      [ EvCreate (output_path h (clock w));
        EvExists (path_join h projectPath ".buildignore");
        EvRead (path_join h projectPath ".buildignore");
        EvArchive projectPath (builtin_excludes ++ excludePatterns) ]
  /\ (forall patterns,
        all_excludes patterns excludePatterns = patterns ++ excludePatterns ->
        patterns <> []).
Proof.
  intros Hne Hf Hb. split.
  - rewrite (packageProject_trace_with_file _ _ _ _ _ Hne Hf).
    by rewrite (parse_buildignore_blank _ Hb).
  - intros patterns. apply all_excludes_override_only.
Qed.

Lemma empty_buildignore_falls_back_witness :
  trace (snd (packageProject (sample_host true true true) "/work/app" []
                (sample_world
                   (("/work/app/.buildignore", File "# nothing to ignore")
                    :: sample_project))))
  = [ EvCreate "/tmp/build-1767264765206.tar.gz";
      EvExists "/work/app/.buildignore";
      EvRead "/work/app/.buildignore";
      EvArchive "/work/app" builtin_excludes ].
Proof.
  apply (empty_buildignore_falls_back (sample_host true true true) "/work/app"
           []
           (sample_world
              (("/work/app/.buildignore", File "# nothing to ignore")
               :: sample_project))
           "# nothing to ignore");
    [vm_compute; discriminate | reflexivity |].
  constructor; [right; reflexivity | constructor].
Defined.

(** ** Running the pipeline *)

Lemma mbind_run {A B} (m : M A) (k : A -> M B) (w : World) :
  mbind m k w =
    match m w with
    | (Ret a, w') => k a w'
    | (Throw e, w') => (Throw e, w')
    | (Exit c, w') => (Exit c, w')
    end.
Proof. reflexivity. Qed.

Lemma mbind_lift {A B} (o : outcome A) (k : A -> M B) (w : World) :
  mbind (lift o) k w =
    match o with
    | Ret a => k a w
    | Throw e => (Throw e, w)
    | Exit c => (Exit c, w)
    end.
Proof. by destruct o. Qed.

Lemma js_get_never_exits (v : jsval) (name : string) : not_exit (js_get v name).
Proof. by destruct v. Qed.

Lemma call_toUpperCase_never_exits (v : jsval) : not_exit (call_toUpperCase v).
Proof. by destruct v. Qed.

Lemma local_no_unlink (t : list event) :
  forallb is_local t = true -> no_unlink t.
Proof.
  unfold no_unlink, is_local. induction t as [|e t IH]; [done|]. simpl.
  intros H. apply andb_prop in H as [He Ht]. apply andb_prop in He as [_ ->].
  by apply IH.
Qed.

Lemma local_no_network (t : list event) :
  forallb is_local t = true -> no_network t.
Proof.
  unfold no_network, is_local. induction t as [|e t IH]; [done|]. simpl.
  intros H. apply andb_prop in H as [He Ht]. apply andb_prop in He as [-> _].
  by apply IH.
Qed.

Lemma no_network_has_none (t : list event) :
  no_network t -> existsb is_network t = false.
Proof.
  unfold no_network. induction t as [|e t IH]; [done|]. simpl.
  intros H. apply andb_prop in H as [He Ht]. rewrite (IH Ht).
  by destruct (is_network e).
Qed.

Lemma no_unlink_app (t u : list event) :
  no_unlink t -> no_unlink u -> no_unlink (t ++ u).
Proof. unfold no_unlink. rewrite forallb_app. by intros -> ->. Qed.

Lemma is_local_app (t u : list event) :
  forallb is_local t = true -> forallb is_local u = true ->
  forallb is_local (t ++ u) = true.
Proof. rewrite forallb_app. by intros -> ->. Qed.

Lemma uploadToAppwrite_logs (h : Host) (filePath : string) (config : jsval)
    (w : World) :
  only_logs no_unlink (uploadToAppwrite h filePath config) w.
Proof.
  unfold only_logs, uploadToAppwrite.
  pose proof (js_get_never_exits config "appwriteEndpoint") as H1.
  pose proof (js_get_never_exits config "appwriteProject") as H2.
  pose proof (js_get_never_exits config "appwriteKey") as H3.
  pose proof (js_get_never_exits config "appwriteBucket") as H4.
  rewrite mbind_lift. destruct (js_get config "appwriteEndpoint"); [|logged|done].
  rewrite mbind_lift. destruct (js_get config "appwriteProject"); [|logged|done].
  rewrite mbind_lift. destruct (js_get config "appwriteKey"); [|logged|done].
  destruct (client_new h _ _ _); [logged|].
  rewrite mbind_run, readFileSync_run.
  destruct (files w !! filePath) as [[content|]|]; [|logged..].
  rewrite mbind_lift. destruct (js_get config "appwriteBucket"); [|logged|done].
  unfold mbind, emit, of_result. simpl.
  destruct (storage_createFile h _ _ _) as [e|file]; simpl; [logged|].
  pose proof (js_get_never_exits file "$id") as H5.
  unfold lift. destruct (js_get file "$id") as [id| |]; [|logged|done].
  pose proof (js_to_string_never_exits id) as H6.
  destruct (js_to_string id); [logged|logged|done].
Qed.

Lemma triggerBuild_logs (h : Host) (sourceUrl : string)
    (buildConfig : BuildConfig) (config : jsval) (w : World) :
  only_logs no_unlink (triggerBuild h sourceUrl buildConfig config) w.
Proof.
  unfold only_logs, triggerBuild.
  pose proof (js_to_string_never_exits (getGradleCommand buildConfig)) as H1.
  pose proof (call_toUpperCase_never_exits (buildType buildConfig)) as H2.
  pose proof (js_get_never_exits config "githubRepo") as H3.
  pose proof (js_get_never_exits config "githubToken") as H4.
  rewrite mbind_run. unfold Date_now.
  rewrite mbind_lift.
  destruct (js_to_string (getGradleCommand buildConfig)); [|logged|done].
  rewrite mbind_lift.
  destruct (call_toUpperCase (buildType buildConfig)); [|logged|done].
  rewrite mbind_lift.
  destruct (js_get config "githubRepo") as [repo| |]; [|logged|done].
  pose proof (js_to_string_never_exits repo) as H5.
  rewrite mbind_lift. destruct (js_to_string repo); [|logged|done].
  rewrite mbind_lift.
  destruct (js_get config "githubToken") as [token| |]; [|logged|done].
  pose proof (js_to_string_never_exits token) as H6.
  rewrite mbind_lift. destruct (js_to_string token); [|logged|done].
  unfold mbind, emit, of_result. simpl.
  destruct (http_post h _ _ _) as [e|[ok status]]; simpl; [logged|].
  destruct ok; logged.
Qed.

Lemma loadConfig_run (h : Host) (w : World) :
  loadConfig h w =
    match files w !! CONFIG_FILE h with
    | None => (Exit 1, log w [EvExists (CONFIG_FILE h)])
    | Some Dir =>
        (Throw (FsError "EISDIR" (CONFIG_FILE h)),
         log w [EvExists (CONFIG_FILE h); EvRead (CONFIG_FILE h)])
    | Some (File text) =>
        (match JSON_parse h text with
         | Some v => Ret v
         | None => Throw (SyntaxError "Unexpected token in JSON")
         end,
         log w [EvExists (CONFIG_FILE h); EvRead (CONFIG_FILE h)])
    end.
Proof.
  unfold loadConfig. rewrite mbind_run, existsSync_run.
  destruct (files w !! CONFIG_FILE h) as [[text|]|] eqn:E; cbn [negb];
    cbv beta iota; [| |done].
  - rewrite mbind_run, readFileSync_run. simpl files. rewrite E, log_log.
    unfold json_parse. by destruct (JSON_parse h text).
  - rewrite mbind_run, readFileSync_run. simpl files. by rewrite E, log_log.
Qed.

Lemma unlinkSync_run (p : string) (w : World) :
  unlinkSync p w =
    match files w !! p with
    | Some (File _) =>
        (Ret tt, mkWorld (delete p (files w)) (clock w) (trace w ++ [EvUnlink p]))
    | Some Dir => (Throw (FsError "EISDIR" p), log w [EvUnlink p])
    | None => (Throw (FsError "ENOENT" p), log w [EvUnlink p])
    end.
Proof.
  unfold unlinkSync, mbind, emit, log. simpl.
  by destruct (files w !! p) as [[]|].
Qed.

(** Packaging adds local events only; when it returns, the archiver has
    completed and the archive is on disk at the output path. *)
Lemma packageProject_summary (h : Host) (projectPath : string)
    (excludePatterns : list string) (w : World) :
  let r := packageProject h projectPath excludePatterns w in
  not_exit (fst r)
  /\ (exists t, trace (snd r) = trace w ++ t /\ forallb is_local t = true)
  /\ match fst r with
     | Ret path =>
         path = output_path h (clock w)
         /\ archive_on_disk h projectPath w (snd r)
     | _ => True
     end.
Proof.
  intros r. subst r. rewrite packageProject_run, read_buildignore_run.
  simpl files.
  destruct (_ !! path_join h projectPath ".buildignore") as [[content|]|];
    [| logged |];
    rewrite run_archiver_run; simpl files;
    match goal with
    | |- context [archiver_tar h ?fs ?p ?ig] =>
        destruct (archiver_tar h fs p ig) as [e|bytes] eqn:Ea
    end; simpl; repeat split; try done;
    try (eexists; split; [by rewrite <- ?app_assoc | done]);
    unfold archive_on_disk; simpl;
    eexists _, _, bytes; (split; [exact Ea | apply lookup_insert_eq]).
Qed.

Lemma loadEasConfig_logs (h : Host) (projectPath : string) (w : World) :
  exists v t,
    loadEasConfig h projectPath w = (Ret v, log w t)
    /\ forallb is_local t = true.
Proof.
  rewrite loadEasConfig_run.
  destruct (files w !! path_join h projectPath "eas.json") as [[text|]|];
    by eexists _, _.
Qed.

Lemma loadConfig_logs (h : Host) (w : World) :
  ok_exit (fst (loadConfig h w))
  /\ exists t, snd (loadConfig h w) = log w t /\ forallb is_local t = true.
Proof.
  rewrite loadConfig_run.
  destruct (files w !! CONFIG_FILE h) as [[text|]|]; simpl;
    (split; [try done | by eexists]).
  by destruct (JSON_parse h text).
Qed.

Lemma trace_chain (w w1 w2 : World) (t1 t2 : list event) :
  trace w1 = trace w ++ t1 -> trace w2 = trace w1 ++ t2 ->
  trace w2 = trace w ++ (t1 ++ t2).
Proof. intros H1 H2. by rewrite H2, H1, <- app_assoc. Qed.

Lemma archive_on_disk_files (h : Host) (root : string) (w w1 w2 : World) :
  files w2 = files w1 -> archive_on_disk h root w w1 ->
  archive_on_disk h root w w2.
Proof. unfold archive_on_disk. by intros ->. Qed.

(** The [try] block of [build], summarised.  When it returns, the archive
    was written, later unlinked as the last effect, and is gone.  When it
    throws or ends the process, nothing was unlinked, and a network call was
    made only after the archive had been written, which is then still on
    disk. *)
Lemma build_steps_run (h : Host) (options : Options) (w : World) :
  let r := build_steps h options w in
  let out := output_path h (clock w) in
  ok_exit (fst r)
  /\ exists t,
       trace (snd r) = trace w ++ t
       /\ match fst r with
          | Ret _ =>
              exists t0, t = t0 ++ [EvUnlink out]
                         /\ no_unlink t0 /\ files (snd r) !! out = None
                         /\ archiver_completed h (project_root h options)
          | _ =>
              no_unlink t
              /\ (existsb is_network t = true ->
                  archive_on_disk h (project_root h options) w (snd r))
          end.
Proof.
  intros r out. subst r.
  set (root := project_root h options).
  set (Post := fun x : outcome BuildInfo * World =>
    ok_exit (fst x)
    /\ exists t,
         trace (snd x) = trace w ++ t
         /\ match fst x with
            | Ret _ =>
                exists t0, t = t0 ++ [EvUnlink out]
                           /\ no_unlink t0 /\ files (snd x) !! out = None
                           /\ archiver_completed h root
            | _ =>
                no_unlink t
                /\ (existsb is_network t = true ->
                    archive_on_disk h root w (snd x))
            end).
  change (Post (build_steps h options w)).
  assert (forall e t w', trace w' = trace w ++ t ->
            forallb is_local t = true -> Post (Throw e, w')) as Hearly.
  { intros e t w' Ht Hl. split; [done|]. exists t. split; [done|]. split.
    - by apply local_no_unlink.
    - intros Hn. apply local_no_network, no_network_has_none in Hl.
      simpl in Hn. congruence. }
  assert (forall e t w', trace w' = trace w ++ t -> no_unlink t ->
            archive_on_disk h root w w' -> Post (Throw e, w')) as Hlate.
  { intros e t w' Ht Hl Ha. split; [done|]. by exists t. }
  unfold build_steps. fold (project_root h options). fold root.
  set (profile := or_else (opt_profile options) "production").
  (* loadConfig *)
  rewrite mbind_run.
  destruct (loadConfig_logs h w) as (Hx & t1 & Hw1 & Ht1).
  destruct (loadConfig h w) as [[config|e|c] w1]; simpl in Hx, Hw1; subst w1.
  2: { by apply (Hearly e t1). }
  2: { subst c. split; [done|]. exists t1. split; [done|]. split.
       - by apply local_no_unlink.
       - intros Hn. apply local_no_network, no_network_has_none in Ht1.
         simpl in Hn. congruence. }
  (* loadEasConfig *)
  rewrite mbind_run.
  destruct (loadEasConfig_logs h root (log w t1)) as (easConfig & t2 & -> & Ht2).
  rewrite log_log.
  pose proof (is_local_app _ _ Ht1 Ht2) as Ht12.
  (* mapProfileToConfig *)
  rewrite mbind_lift.
  match goal with
  | |- context [mapProfileToConfig ?p ?pc] =>
      pose proof (mapProfileToConfig_never_exits p pc) as Hne;
      pose proof (mapProfileToConfig_wellformed p pc) as Hwf;
      destruct (mapProfileToConfig p pc) as [buildConfig|e|c]; [| |done]
  end.
  2: { by apply (Hearly e (t1 ++ t2)). }
  destruct (Hwf buildConfig eq_refl) as [Hstr _]. clear Hwf Hne.
  (* packageProject *)
  rewrite mbind_run.
  pose proof (packageProject_summary h root [] (log w (t1 ++ t2)))
    as (Hne & (t3 & Htr3 & Ht3) & Hret).
  destruct (packageProject h root [] (log w (t1 ++ t2)))
    as [[packagePath|e|c] w3]; simpl in Hne, Htr3, Hret; [| |done].
  2: { apply (Hearly e ((t1 ++ t2) ++ t3)); [by rewrite Htr3, <- app_assoc |].
       by apply is_local_app. }
  destruct Hret as [-> Hdisk]. fold out in Hdisk |- *.
  change (archive_on_disk h root w w3) in Hdisk.
  assert (trace w3 = trace w ++ ((t1 ++ t2) ++ t3)) as Htr3'
    by (by rewrite Htr3, <- app_assoc).
  assert (no_unlink ((t1 ++ t2) ++ t3)) as Hnu3
    by (by apply local_no_unlink, is_local_app).
  clear Htr3 Ht1 Ht2 Ht3 Ht12.
  (* uploadToAppwrite *)
  rewrite mbind_run.
  destruct (uploadToAppwrite_logs h out config w3)
    as (Hne4 & Hf4 & t4 & Htr4 & Ht4).
  destruct (uploadToAppwrite h out config w3) as [[file|e|c] w4];
    simpl in Hne4, Hf4, Htr4; [| |done].
  all: pose proof (trace_chain _ _ _ _ _ Htr3' Htr4) as Htr4';
    pose proof (no_unlink_app _ _ Hnu3 Ht4) as Hnu4;
    pose proof (archive_on_disk_files _ _ _ _ _ Hf4 Hdisk) as Hdisk4.
  2: { by apply (Hlate e _ _ Htr4'). }
  (* the source URL *)
  pose proof (js_get_never_exits config "appwriteEndpoint") as G1.
  rewrite mbind_lift.
  destruct (js_get config "appwriteEndpoint") as [endpoint|e|];
    [|by apply (Hlate e _ _ Htr4')|done].
  pose proof (js_to_string_never_exits endpoint) as G2.
  rewrite mbind_lift.
  destruct (js_to_string endpoint) as [endpoint'|e|];
    [|by apply (Hlate e _ _ Htr4')|done].
  pose proof (js_get_never_exits config "appwriteBucket") as G3.
  rewrite mbind_lift.
  destruct (js_get config "appwriteBucket") as [bucket|e|];
    [|by apply (Hlate e _ _ Htr4')|done].
  pose proof (js_to_string_never_exits bucket) as G4.
  rewrite mbind_lift.
  destruct (js_to_string bucket) as [bucket'|e|];
    [|by apply (Hlate e _ _ Htr4')|done].
  pose proof (js_get_never_exits file "$id") as G5.
  rewrite mbind_lift.
  destruct (js_get file "$id") as [id|e|];
    [|by apply (Hlate e _ _ Htr4')|done].
  pose proof (js_to_string_never_exits id) as G6.
  rewrite mbind_lift.
  destruct (js_to_string id) as [ids|e|];
    [|by apply (Hlate e _ _ Htr4')|done].
  (* triggerBuild *)
  rewrite mbind_run.
  match goal with
  | |- context [triggerBuild h ?url buildConfig config w4] =>
      destruct (triggerBuild_logs h url buildConfig config w4)
        as (Hne5 & Hf5 & t5 & Htr5 & Ht5);
      destruct (triggerBuild h url buildConfig config w4) as [[buildId|e|c] w5];
      simpl in Hne5, Hf5, Htr5; [| |done]
  end.
  all: pose proof (trace_chain _ _ _ _ _ Htr4' Htr5) as Htr5';
    pose proof (no_unlink_app _ _ Hnu4 Ht5) as Hnu5;
    pose proof (archive_on_disk_files _ _ _ _ _ Hf5 Hdisk4) as Hdisk5.
  2: { by apply (Hlate e _ _ Htr5'). }
  (* unlinkSync *)
  rewrite mbind_run, unlinkSync_run.
  destruct Hdisk5 as (fs & ig & bytes & Harch & Hout). fold out in Hout.
  rewrite Hout.
  rewrite mbind_lift.
  destruct (buildType buildConfig); try done. simpl.
  split; [done|]. eexists. split; [by rewrite Htr5', <- app_assoc|].
  eexists. split; [done|]. split; [done|]. split; [apply lookup_delete_eq|].
  by exists fs, ig, bytes.
Qed.

Lemma has_no_network (t : list event) :
  existsb is_network t = false -> no_network t.
Proof.
  unfold no_network. induction t as [|e t IH]; [done|]. simpl.
  destruct (is_network e); [done|]. simpl. apply IH.
Qed.

(** [build] is its [try] block with every thrown error turned into
    [process.exit(1)]. *)
Lemma build_run (h : Host) (options : Options) (w : World) :
  build h options w =
    match build_steps h options w with
    | (Throw _, w') => (Exit 1, w')
    | r => r
    end.
Proof.
  unfold build, try_catch.
  by destruct (build_steps h options w) as [[?|?|?] ?].
Qed.




(** C9, as stated, fails: when the storage service rejects the upload, the
    run ends with status 1 after the upload call and without any attempt to
    delete the archive. *)
Lemma upload_failure_leaves_archive : ~ failed_run_unlinks_archive.
Proof.
  intros H.
  specialize (H (sample_host true false true) default_options
                (sample_world (stored_config :: sample_project))).
  vm_compute in H. specialize (H eq_refl eq_refl). discriminate H.
Qed.

(** C9, amended. The temporary archive is removed on the success path only:
    when [build] completes, its last effect was to unlink the archive, which
    is gone.  On every failing path the process ends with status 1 and no
    deletion was attempted; if a network call had been made by then (upload
    or dispatch failure) the archive is still on disk. *)
Theorem archive_removed_on_success_only (h : Host) (options : Options)
    (w : World) :
  let r := build h options w in
  let out := output_path h (clock w) in
  exists t,
    trace (snd r) = trace w ++ t
    /\ match fst r with
       | Ret _ =>
           exists t0, t = t0 ++ [EvUnlink out]
                      /\ no_unlink t0 /\ files (snd r) !! out = None
       | Throw _ => False
       | Exit c =>
           c = 1 /\ no_unlink t
           /\ (existsb is_network t = true ->
               exists bytes, files (snd r) !! out = Some (File bytes))
       end.
Proof.
  intros r out. subst r. rewrite build_run.
  pose proof (build_steps_run h options w) as (Hx & t & Ht & Hr).
  destruct (build_steps h options w) as [[info|e|c] w']; simpl in *;
    exists t; (split; [done|]).
  - destruct Hr as (t0 & ? & ? & ? & _). by exists t0.
  - destruct Hr as [Hu Hn]. repeat split; [done|]. intros Hnet.
    destruct (Hn Hnet) as (? & ? & bytes & _ & ?). by exists bytes.
  - destruct Hr as [Hu Hn]. repeat split; [done..|]. intros Hnet.
    destruct (Hn Hnet) as (? & ? & bytes & _ & ?). by exists bytes.
Qed.

(** C6 at a stored configuration that lacks all six fields: the run is not
    stopped after loading it.  The profile document is read, the project is
    packaged and uploaded with an undefined bucket, and the run only ends,
    with status 1, when the dispatch to [repos/undefined] is refused; the
    archive is left behind. *)
Theorem empty_config_is_not_rejected :
  let r := build (sample_host true true false) default_options
             (sample_world (empty_config :: sample_project)) in
  fst r = Exit 1
  /\ firstn 4 (trace (snd r)) =
       [ EvExists "/home/dev/.build-service.json";
         EvRead "/home/dev/.build-service.json";
         EvExists "/work/app/eas.json";
         EvRead "/work/app/eas.json" ]
  /\ In (EvUpload JUndefined "build-1767264765206.tar.gz") (trace (snd r))
  /\ (exists payload,
        last (trace (snd r)) =
          Some (EvDispatch "https://api.github.com/repos/undefined/dispatches"
                  payload))
  /\ is_Some (files (snd r) !! "/tmp/build-1767264765206.tar.gz").
Proof.
  vm_compute. repeat split; try done.
  - do 8 right. by left.
  - by eexists.
  - by eexists.
Qed.

(** Whatever document is stored, [loadConfig] returns it: no field is
    looked at. *)
Lemma loadConfig_accepts_any_document (h : Host) (w : World)
    (text : string) (config : jsval) :
  files w !! CONFIG_FILE h = Some (File text) ->
  JSON_parse h text = Some config ->
  fst (loadConfig h w) = Ret config.
Proof. intros Hf Hp. by rewrite loadConfig_run, Hf, Hp. Qed.

(** The plain tool does make the test: with any of the six fields falsy its
    [build] action ends the process with status 1 right after reading the
    configuration. *)
Lemma legacy_build_rejects_missing_configuration (h : Host)
    (projectPath : string) (options : Legacy.BuildOptions) (w : World)
    (text : string) (config : jsval) :
  files w !! Legacy.CONFIG_PATH h = Some (File text) ->
  JSON_parse h text = Some config ->
  Legacy.missing_configuration config = Ret true ->
  Legacy.build h projectPath options w =
    (Exit 1, log w [EvExists (Legacy.CONFIG_PATH h); EvRead (Legacy.CONFIG_PATH h)]).
Proof.
  intros Hf Hp Hm. unfold Legacy.build, try_catch.
  rewrite mbind_run. unfold Legacy.loadConfig.
  rewrite mbind_run, existsSync_run, Hf. cbv beta iota.
  rewrite mbind_run, readFileSync_run. simpl files. rewrite Hf, log_log.
  unfold json_parse. rewrite Hp. unfold mret.
  by rewrite mbind_lift, Hm.
Qed.

Lemma grows_ret {A} (a : A) : grows (mret a).
Proof. intros w. exists []. simpl. by rewrite app_nil_r. Qed.

Lemma grows_lift {A} (o : outcome A) : grows (lift o).
Proof. intros w. exists []. simpl. by rewrite app_nil_r. Qed.

Lemma grows_bind {A B} (m : M A) (k : A -> M B) :
  grows m -> (forall a, grows (k a)) -> grows (mbind m k).
Proof.
  intros Hm Hk w. rewrite mbind_run. destruct (Hm w) as [t Ht].
  destruct (m w) as [[a|e|c] w1]; simpl in Ht; [|by exists t..].
  destruct (Hk a w1) as [u Hu]. exists (t ++ u).
  by rewrite Hu, Ht, <- app_assoc.
Qed.

Lemma grows_only_logs {A} (P : list event -> Prop) (m : M A) :
  (forall w, only_logs P m w) -> grows m.
Proof. intros H w. destruct (H w) as (_ & _ & t & Ht & _). by exists t. Qed.

Lemma grows_packageProject (h : Host) (p : string) (ex : list string) :
  grows (packageProject h p ex).
Proof.
  intros w. destruct (packageProject_summary h p ex w) as (_ & (t & Ht & _) & _).
  by exists t.
Qed.

Lemma grows_unlinkSync (p : string) : grows (unlinkSync p).
Proof.
  intros w. rewrite unlinkSync_run. exists [EvUnlink p].
  by destruct (files w !! p) as [[]|].
Qed.

(** Whatever document is stored as configuration, [build] goes on to look
    for the profile document: no test of the six fields comes first. *)
Lemma build_probes_profile_for_any_config (h : Host) (options : Options)
    (w : World) (text : string) (config : jsval) :
  files w !! CONFIG_FILE h = Some (File text) ->
  JSON_parse h text = Some config ->
  exists rest,
    trace (snd (build h options w)) =
      trace w ++ [ EvExists (CONFIG_FILE h); EvRead (CONFIG_FILE h);
                   EvExists (path_join h (project_root h options) "eas.json") ]
              ++ rest.
Proof.
  intros Hf Hp.
  assert (trace (snd (build h options w))
          = trace (snd (build_steps h options w))) as ->.
  { rewrite build_run. by destruct (build_steps h options w) as [[?|?|?] ?]. }
  unfold build_steps. fold (project_root h options).
  rewrite mbind_run, loadConfig_run, Hf, Hp.
  rewrite mbind_run, loadEasConfig_run. simpl files.
  destruct (files w !! path_join h (project_root h options) "eas.json")
    as [[t|]|]; cbv beta iota;
    match goal with
    | |- context [snd (?m ?w1)] =>
        let Hg := fresh "Hg" in
        assert (grows m) as Hg
          by (repeat first
                [ apply grows_packageProject | apply grows_unlinkSync
                | apply (grows_only_logs no_unlink); intros ?;
                  first [apply uploadToAppwrite_logs | apply triggerBuild_logs]
                | apply grows_lift | apply grows_ret
                | apply grows_bind; [|intros ?] ]);
        destruct (Hg w1) as [u Hu]; rewrite Hu; simpl;
        rewrite <- !app_assoc; simpl; by eexists
    end.
Qed.

Lemma legacy_detects_any_missing_field (fields : list (string * jsval))
    (name : string) :
  In name required_fields ->
  truthy (js_field (JObj fields) name) = false ->
  Legacy.missing_configuration (JObj fields) = Ret true.
Proof.
  unfold required_fields, Legacy.missing_configuration, js_field. simpl.
  intros Hin Hf.
  repeat match goal with
         | |- context [truthy (default JUndefined (assoc ?n fields))] =>
             destruct (truthy (default JUndefined (assoc n fields))) eqn:?;
               simpl; try done
         end.
  repeat (destruct Hin as [<- | Hin]; [congruence|]). done.
Qed.

(** A build type that is not a string stops the resolver: the log line calls
    [toUpperCase] on it. *)
Lemma numeric_buildType_throws :
  mapProfileToConfig "preview" (JObj [("android", JObj [("buildType", JNum 3)])])
  = Throw (TypeError "toUpperCase is not a function").
Proof. reflexivity. Qed.

(** The plain tool on a failing upload: the process ends with status 1, no
    deletion was attempted and the temporary directory is still there. *)
Lemma legacy_upload_failure_leaves_directory :
  let r := Legacy.build (sample_host true false true) "/work/app"
             (Legacy.mkBuildOptions "android" "release" false)
             (sample_world (stored_config :: sample_project)) in
  fst r = Exit 1
  /\ existsb is_unlink (trace (snd r)) = false
  /\ files (snd r) !! "/tmp/build-service-1767264765206" = Some Dir.
Proof. by vm_compute. Qed.

(** ** Further properties: patterns, resolver, arguments *)

Lemma rev_app_append (s1 s2 acc : string) :
  String.rev_app (s1 +:+ s2) acc = String.rev_app s2 (String.rev_app s1 acc).
Proof. revert acc. induction s1 as [|c s1 IH]; intros acc; simpl; [done|]. apply IH. Qed.

Lemma ends_with_slash_stars (line : string) :
  ends_with "/" (line +:+ "**") = false.
Proof. unfold ends_with, String.rev. by rewrite rev_app_append. Qed.

Lemma starts_with_hash_append (c : ascii) (line suffix : string) :
  starts_with "#" (String c line +:+ suffix) = starts_with "#" (String c line).
Proof.
  assert (forall x, String.prefix "" x = true) as Hnil by (by intros []).
  unfold starts_with.
  transitivity (match Ascii.ascii_dec "#"%char c with
                | left _ => String.prefix "" (line +:+ suffix)
                | right _ => false
                end); [reflexivity|].
  transitivity (match Ascii.ascii_dec "#"%char c with
                | left _ => String.prefix "" line
                | right _ => false
                end); [|reflexivity].
  by rewrite !Hnil.
Qed.

(** X1. No pattern read from [.buildignore] is empty, is a comment, or ends
    with a slash: a directory entry always carries the suffix [**]. *)
Theorem parse_buildignore_patterns (content : string) :
  Forall (fun p => p <> "" /\ starts_with "#" p = false
                   /\ ends_with "/" p = false)
    (parse_buildignore content).
Proof.
  unfold parse_buildignore. apply Forall_forall. intros p Hp.
  apply list_elem_of_In in Hp.
  apply in_map_iff in Hp as (line & <- & Hl).
  apply filter_In in Hl as [_ Hl]. apply andb_prop in Hl as [Hne Hc].
  apply negb_true_iff in Hne, Hc.
  destruct line as [|c line]; [done|].
  destruct (ends_with "/" (String c line)) eqn:He.
  - repeat split; [done| |apply ends_with_slash_stars].
    by rewrite starts_with_hash_append.
  - done.
Qed.

Lemma js_to_string_throws_TypeError (v : jsval) (e : js_error) :
  js_to_string v = Throw e -> exists msg, e = TypeError msg.
Proof.
  revert v e. fix IH 1. intros [| |[]|n|s|items|fields|] e; simpl; try done.
  - match goal with
    | |- ?f true items = _ -> _ =>
        cut (forall l b, f b l = Throw e -> exists msg, e = TypeError msg);
          [intros H; apply H|]; clear items
    end.
    fix IHl 1. intros [|x rest] first; [done|].
    pose proof (IH x e) as Hx. pose proof (IHl rest false) as Hr.
    destruct x as [| |[]|?|?|?|?|]; simpl in *;
      repeat match goal with
             | |- context [obind ?o _] => destruct o eqn:?; simpl; try done
             end;
      try (intros [= <-]; by (apply Hx || apply Hr)).
  - destruct (assoc "toString" fields); [|done]. intros [= <-]. by eexists.
Qed.


Lemma mapProfileToConfig_unprintable (profile : string) (pc : jsval) :
  printable_android pc = false ->
  exists msg, mapProfileToConfig profile pc = Throw (TypeError msg).
Proof.
  intros Hp.
  assert (truthy (js_field pc "android") = true) as Ha.
  { destruct (truthy (js_field pc "android")) eqn:Ha; [done|].
    unfold printable_android, declared_buildType, declared_gradleCommand in Hp.
    by rewrite !(falsy_has_no_truthy_member _ _ Ha) in Hp. }
  pose proof (truthy_member_of_truthy _ _ Ha) as Hpc.
  unfold mapProfileToConfig. rewrite Hpc, Ha. simpl negb. cbv iota.
  unfold printable_android, declared_buildType, declared_gradleCommand in Hp.
  unfold map_android.
  destruct (truthy (js_field (js_field pc "android") "buildType")) eqn:Hb.
  - destruct (js_field (js_field pc "android") "buildType") eqn:Hbt;
      simpl in Hp |- *; try by eexists.
    destruct (truthy (js_field (js_field pc "android") "gradleCommand"));
      [|done].
    unfold renders in Hp.
    pose proof (js_to_string_never_exits
                  (js_field (js_field pc "android") "gradleCommand")) as Hne.
    destruct (js_to_string (js_field (js_field pc "android") "gradleCommand"))
      as [|e|] eqn:Hs; try done.
    apply js_to_string_throws_TypeError in Hs as [msg ->]. simpl. by eexists.
  - simpl in Hp |- *.
    destruct (truthy (js_field (js_field pc "android") "gradleCommand"));
      [|done].
    unfold renders in Hp.
    pose proof (js_to_string_never_exits
                  (js_field (js_field pc "android") "gradleCommand")) as Hne.
    destruct (js_to_string (js_field (js_field pc "android") "gradleCommand"))
      as [|e|] eqn:Hs; try done.
    apply js_to_string_throws_TypeError in Hs as [msg ->]. simpl. by eexists.
Qed.

(** X2. The resolver fails exactly when a declared build type is not a
    string or a declared command cannot be printed, and then by a TypeError
    of a log line.  Otherwise it returns a configuration whose variant is
    [release] or [debug], whose build type is a string and whose derived
    command can be printed. *)
Theorem resolver_outcome (profile : string) (pc : jsval) :
  if printable_android pc
  then exists cfg,
         mapProfileToConfig profile pc = Ret cfg
         /\ (variant cfg = "release" \/ variant cfg = "debug")
         /\ is_string (buildType cfg) = true
         /\ renders (getGradleCommand cfg) = true
  else exists msg, mapProfileToConfig profile pc = Throw (TypeError msg).
Proof.
  destruct (printable_android pc) eqn:Hp;
    [|by apply mapProfileToConfig_unprintable].
  destruct (mapProfileToConfig_returns profile pc Hp) as (cfg & Hm & _ & _ & Hg).
  exists cfg. destruct (mapProfileToConfig_wellformed _ _ _ Hm) as [Hs Hv].
  repeat split; try done.
  unfold getGradleCommand. rewrite Hg.
  unfold printable_android in Hp. apply andb_prop in Hp as [_ Hr].
  destruct (truthy (declared_gradleCommand pc)) eqn:Ht.
  - by rewrite Ht.
  - simpl. by destruct (strict_eq_str (buildType cfg) "aab").
Qed.

(** X3. The command dispatched for a profile: the declared command when
    there is one, else [bundle] or [assemble] (by whether the declared build
    type is exactly ["aab"]) followed by [Debug] or [Release] (by whether
    [developmentClient] is the boolean [true]). *)
Theorem resolved_command_table (profile : string) (pc : jsval) :
  printable_android pc = true ->
  exists cfg,
    mapProfileToConfig profile pc = Ret cfg
    /\ getGradleCommand cfg =
         if truthy (declared_gradleCommand pc) then declared_gradleCommand pc
         else JStr ((if strict_eq_str (declared_buildType pc) "aab"
                     then "bundle" else "assemble")
                    +:+ (if strict_eq_true (js_field pc "developmentClient")
                         then "Debug" else "Release")).
Proof.
  intros Hp. destruct (truthy pc) eqn:Hpc.
  - eexists. split; [by apply mapProfileToConfig_truthy|].
    unfold getGradleCommand. simpl.
    destruct (truthy (declared_gradleCommand pc)) eqn:Hg; [by rewrite Hg|].
    simpl.
    assert (strict_eq_str
              (if truthy (declared_buildType pc)
               then declared_buildType pc else JStr "apk") "aab"
            = strict_eq_str (declared_buildType pc) "aab") as ->.
    { destruct (declared_buildType pc) as [| |[]|n|s|?|?|]; simpl; try done.
      - by destruct (n =? 0).
      - by destruct s. }
    by destruct (strict_eq_str (declared_buildType pc) "aab"),
                (strict_eq_true (js_field pc "developmentClient")).
  - exists default_config. split; [by apply mapProfileToConfig_falsy|].
    pose proof (falsy_has_no_truthy_member pc "android" Hpc) as Ha.
    unfold declared_gradleCommand, declared_buildType.
    rewrite (falsy_has_no_truthy_member _ "gradleCommand" Ha).
    pose proof (falsy_has_no_truthy_member _ "buildType" Ha) as Hb.
    pose proof (falsy_has_no_truthy_member _ "developmentClient" Hpc) as Hd.
    destruct (js_field (js_field pc "android") "buildType")
      as [| |[]|n|s|?|?|]; simpl in Hb; try done;
      destruct (js_field pc "developmentClient") as [| |[]|?|?|?|?|];
      simpl in Hd; try done;
      try (destruct s; simpl in Hb; done).
Qed.

Lemma resolved_command_table_witness :
  exists cfg,
    mapProfileToConfig "development"
      (JObj [("developmentClient", JBool true);
             ("android", JObj [("buildType", JStr "aab")])]) = Ret cfg
    /\ getGradleCommand cfg = JStr "bundleDebug".
Proof.
  apply (resolved_command_table "development"
           (JObj [("developmentClient", JBool true);
                  ("android", JObj [("buildType", JStr "aab")])])).
  reflexivity.
Defined.

(** ** Further properties: command-line arguments *)

Lemma parse_options_profile_aux (n : nat) :
  forall (args : list string) (options : Options),
    (List.length args <= n)%nat ->
    ~ In "--profile" args -> ~ In "--eas-profile" args ->
    opt_profile (parse_options args options) = opt_profile options.
Proof.
  induction n as [|n IH]; intros [|arg rest] options Hlen H1 H2;
    try done; simpl in Hlen; [lia|].
  assert (arg <> "--profile" /\ arg <> "--eas-profile") as [Ha1 Ha2].
  { split; intros ->; [apply H1 | apply H2]; by left. }
  assert (~ In "--profile" rest /\ ~ In "--eas-profile" rest) as [Hr1 Hr2].
  { split; intros Hin; [apply H1 | apply H2]; by right. }
  cbn [parse_options].
  destruct (is_flag ["--path"; "-p"] arg).
  { destruct rest as [|value rest']; [done|].
    rewrite IH; [done|simpl in *; lia|..]; intros Hin;
      [apply Hr1 | apply Hr2]; by right. }
  assert (is_flag ["--profile"; "--eas-profile"] arg = false) as ->.
  { unfold is_flag. simpl.
    apply String.eqb_neq in Ha1, Ha2. by rewrite Ha1, Ha2. }
  destruct (is_flag ["-a"; "--app"] arg).
  { destruct rest as [|value rest']; [done|].
    rewrite IH; [done|simpl in *; lia|..]; intros Hin;
      [apply Hr1 | apply Hr2]; by right. }
  destruct (is_flag ["-v"; "--version"] arg).
  { destruct rest as [|value rest']; [done|].
    rewrite IH; [done|simpl in *; lia|..]; intros Hin;
      [apply Hr1 | apply Hr2]; by right. }
  apply IH; [lia|done..].
Qed.

Lemma parse_options_path_aux (n : nat) :
  forall (args : list string) (options : Options),
    (List.length args <= n)%nat ->
    ~ In "--path" args -> ~ In "-p" args ->
    opt_path (parse_options args options) = opt_path options.
Proof.
  induction n as [|n IH]; intros [|arg rest] options Hlen H1 H2;
    try done; simpl in Hlen; [lia|].
  assert (arg <> "--path" /\ arg <> "-p") as [Ha1 Ha2].
  { split; intros ->; [apply H1 | apply H2]; by left. }
  assert (~ In "--path" rest /\ ~ In "-p" rest) as [Hr1 Hr2].
  { split; intros Hin; [apply H1 | apply H2]; by right. }
  cbn [parse_options].
  assert (is_flag ["--path"; "-p"] arg = false) as ->.
  { unfold is_flag. simpl.
    apply String.eqb_neq in Ha1, Ha2. by rewrite Ha1, Ha2. }
  destruct (is_flag ["--profile"; "--eas-profile"] arg).
  { destruct rest as [|value rest']; [done|].
    rewrite IH; [done|simpl in *; lia|..]; intros Hin;
      [apply Hr1 | apply Hr2]; by right. }
  destruct (is_flag ["-a"; "--app"] arg).
  { destruct rest as [|value rest']; [done|].
    rewrite IH; [done|simpl in *; lia|..]; intros Hin;
      [apply Hr1 | apply Hr2]; by right. }
  destruct (is_flag ["-v"; "--version"] arg).
  { destruct rest as [|value rest']; [done|].
    rewrite IH; [done|simpl in *; lia|..]; intros Hin;
      [apply Hr1 | apply Hr2]; by right. }
  apply IH; [lia|done..].
Qed.

(** X4. Only [--profile] and [--eas-profile] select a profile: arguments
    holding neither leave the profile as it was, so the command builds
    [production].  In particular the short flag [-p] sets the project
    path, not the profile. *)
Theorem profile_needs_profile_flag (args : list string) (options : Options) :
  ~ In "--profile" args -> ~ In "--eas-profile" args ->
  opt_profile (parse_options args options) = opt_profile options.
Proof. by apply (parse_options_profile_aux (List.length args)). Qed.

Lemma profile_needs_profile_flag_witness :
  opt_profile (parse_options ["-p"; "preview"] initial_options)
  = Some "production".
Proof.
  apply (profile_needs_profile_flag ["-p"; "preview"] initial_options);
    intros [H|[H|[]]]; discriminate H.
Defined.

(** X5. Only [--path] and [-p] select the project directory: arguments
    holding neither leave it unset, and [build] then works in the current
    directory. *)
Theorem path_needs_path_flag (h : Host) (args : list string) :
  ~ In "--path" args -> ~ In "-p" args ->
  project_root h (parse_options args initial_options) = cwd h.
Proof.
  intros H1 H2. unfold project_root.
  by rewrite (parse_options_path_aux (List.length args)).
Qed.

Lemma path_needs_path_flag_witness :
  project_root (sample_host true true true)
    (parse_options ["--profile"; "preview"; "-a"; "shop"] initial_options)
  = "/work/app".
Proof.
  apply (path_needs_path_flag (sample_host true true true)
           ["--profile"; "preview"; "-a"; "shop"]);
    intros [H|[H|[H|[H|[]]]]]; discriminate H.
Defined.

(** ** Further properties: the plain command-line tool *)

(** X6. The six-field test of the plain tool's [build] reports a missing
    configuration exactly when one of the six fields of the stored object is
    falsy (absent, empty, null, zero or false). *)
Theorem legacy_validation_exact (fields : list (string * jsval)) :
  Legacy.missing_configuration (JObj fields) =
    Ret (negb (forallb (fun name => truthy (js_field (JObj fields) name))
                 required_fields)).
Proof.
  unfold Legacy.missing_configuration, required_fields, js_field. simpl.
  repeat match goal with
         | |- context [truthy (default JUndefined (assoc ?n fields))] =>
             destruct (truthy (default JUndefined (assoc n fields)));
               simpl; try done
         end.
Qed.

Lemma substring_whole (n : nat) (s : string) :
  (String.length s <= n)%nat -> String.substring 0 n s = s.
Proof.
  revert n. induction s as [|c s IH]; intros [|n] H; simpl in *;
    try done; try lia.
  f_equal. apply IH. lia.
Qed.

Lemma substring_length (n m : nat) (s : string) :
  (n + m <= String.length s)%nat ->
  String.length (String.substring n m s) = m.
Proof.
  revert n m. induction s as [|c s IH]; intros [|n] [|m] H; simpl in *;
    try done; try lia.
  - f_equal. apply (IH 0%nat). lia.
  - apply (IH n 0%nat). lia.
  - apply IH. lia.
Qed.

Lemma substring_suffix (n m : nat) (s : string) :
  (String.length s <= n + m)%nat ->
  exists hidden, s = hidden +:+ String.substring n m s.
Proof.
  revert n m. induction s as [|c s IH]; intros n m H.
  - exists "". by destruct n, m.
  - destruct n as [|n].
    + exists "". rewrite substring_whole; [done|]. simpl in *. lia.
    + destruct (IH n m) as [hidden Hh]; [simpl in *; lia|].
      exists (String c hidden).
      transitivity (String c (hidden +:+ String.substring n m s));
        [by rewrite <- Hh | by destruct m].
Qed.

(** X7. A stored secret that is a non-empty string is shown as three stars
    and its last four characters at most; one of four characters or fewer is
    shown whole. *)
Theorem mask_shows_last_four (secret : string) :
  secret <> "" ->
  LegacyCli.mask (JStr secret)
    = Ret (JStr ("***" +:+ LegacyCli.slice_last 4 secret))
  /\ (exists hidden, secret = hidden +:+ LegacyCli.slice_last 4 secret)
  /\ String.length (LegacyCli.slice_last 4 secret)
     = Nat.min 4 (String.length secret)
  /\ ((String.length secret <= 4)%nat ->
      LegacyCli.slice_last 4 secret = secret).
Proof.
  intros Hne. unfold LegacyCli.mask, LegacyCli.slice_last. simpl truthy.
  apply String.eqb_neq in Hne. rewrite Hne. simpl negb. cbv iota.
  split; [done|]. split; [|split].
  - apply substring_suffix. lia.
  - destruct (le_lt_dec (String.length secret) 4) as [Hl|Hl].
    + replace (String.length secret - 4)%nat with 0%nat by lia.
      rewrite substring_whole by done. lia.
    + rewrite substring_length by lia. lia.
  - intros Hl. replace (String.length secret - 4)%nat with 0%nat by lia.
    by apply substring_whole.
Qed.

Lemma mask_shows_last_four_witness :
  LegacyCli.mask (JStr "standard_a1b2c3") = Ret (JStr "***b2c3").
Proof.
  apply (mask_shows_last_four "standard_a1b2c3"). discriminate.
Defined.

Lemma assoc_assoc_set (k k' : string) (x : jsval)
    (fields : list (string * jsval)) :
  assoc k (LegacyCli.assoc_set k' x fields) =
    if String.eqb k k' then Some x else assoc k fields.
Proof.
  induction fields as [|[k0 v] rest IH]; simpl.
  - by destruct (String.eqb k k').
  - destruct (String.eqb k' k0) eqn:E0; simpl.
    + apply String.eqb_eq in E0. subst k0.
      by destruct (String.eqb k k').
    + destruct (String.eqb k k0) eqn:E1; [|done].
      apply String.eqb_eq in E1. subst k0.
      rewrite String.eqb_sym in E0. by rewrite E0.
Qed.

Lemma legacy_loadConfig_stored (h : Host) (w : World)
    (fields : list (string * jsval)) :
  stored_object h w fields ->
  exists t, Legacy.loadConfig h w = (Ret (JObj fields), log w t).
Proof.
  unfold Legacy.loadConfig. rewrite mbind_run, existsSync_run.
  intros [[Hf ->] | (text & Hf & Hp)]; rewrite Hf; cbv beta iota.
  - by eexists.
  - rewrite mbind_run, readFileSync_run. simpl files. rewrite Hf, log_log.
    unfold json_parse. rewrite Hp. by eexists.
Qed.

Lemma set_if_given_object (name : string) (value : option string)
    (fields : list (string * jsval)) :
  exists fields',
    LegacyCli.set_if_given name value (JObj fields) = Ret (JObj fields')
    /\ forall k,
         assoc k fields' =
           if String.eqb k name
           then match given value with
                | Some s => Some (JStr s)
                | None => assoc k fields
                end
           else assoc k fields.
Proof.
  unfold LegacyCli.set_if_given, given.
  destruct value as [s|]; [destruct (String.eqb s "")|].
  - exists fields. split; [done|]. intros k. by destruct (String.eqb k name).
  - eexists. split; [done|]. intros k. apply assoc_assoc_set.
  - exists fields. split; [done|]. intros k. by destruct (String.eqb k name).
Qed.

(** What [configure] writes when the stored configuration is an object. *)
Lemma configure_run (h : Host) (JSON_stringify : jsval -> string)
    (options : LegacyCli.ConfigureOptions) (w : World)
    (fields : list (string * jsval)) :
  stored_object h w fields ->
  exists fields',
    fst (LegacyCli.configure h JSON_stringify options w) = Ret tt
    /\ files (snd (LegacyCli.configure h JSON_stringify options w))
       = <[Legacy.CONFIG_PATH h := File (JSON_stringify (JObj fields'))]>
           (files w)
    /\ forall name,
         assoc name fields' =
           match given_value options name with
           | Some s => Some (JStr s)
           | None => assoc name fields
           end.
Proof.
  intros Hs. destruct (legacy_loadConfig_stored h w fields Hs) as [t Hl].
  unfold LegacyCli.configure. rewrite mbind_run, Hl. cbv beta iota.
  destruct (set_if_given_object "appwriteEndpoint"
              (LegacyCli.appwriteEndpoint options) fields) as (f1 & E1 & H1).
  destruct (set_if_given_object "appwriteProject"
              (LegacyCli.appwriteProject options) f1) as (f2 & E2 & H2).
  destruct (set_if_given_object "appwriteKey"
              (LegacyCli.appwriteKey options) f2) as (f3 & E3 & H3).
  destruct (set_if_given_object "appwriteBucket"
              (LegacyCli.appwriteBucket options) f3) as (f4 & E4 & H4).
  destruct (set_if_given_object "githubToken"
              (LegacyCli.githubToken options) f4) as (f5 & E5 & H5).
  destruct (set_if_given_object "githubRepo"
              (LegacyCli.githubRepo options) f5) as (f6 & E6 & H6).
  rewrite mbind_lift, E1. cbv beta iota.
  rewrite mbind_lift, E2. cbv beta iota.
  rewrite mbind_lift, E3. cbv beta iota.
  rewrite mbind_lift, E4. cbv beta iota.
  rewrite mbind_lift, E5. cbv beta iota.
  rewrite mbind_lift, E6. cbv beta iota.
  exists f6. repeat split; try done.
  intros name. rewrite H6, !H5, !H4, !H3, !H2, !H1. unfold given_value.
  clear.
  repeat match goal with
         | |- context [String.eqb name ?k] =>
             let E := fresh "E" in
             destruct (String.eqb name k) eqn:E;
               [apply String.eqb_eq in E; subst name; simpl|]
         end;
    repeat match goal with
           | |- context [given ?v] => destruct (given v)
           end; done.
Qed.

(** X8. [configure] on a stored object (or on no file) rewrites the
    configuration file with the same object in which exactly the fields whose
    option is given and non-empty are replaced by the option's value; every
    other member is kept. *)
Theorem configure_merges (h : Host) (JSON_stringify : jsval -> string)
    (options : LegacyCli.ConfigureOptions) (w : World)
    (fields : list (string * jsval)) :
  stored_object h w fields ->
  exists fields',
    fst (LegacyCli.configure h JSON_stringify options w) = Ret tt
    /\ files (snd (LegacyCli.configure h JSON_stringify options w))
       = <[Legacy.CONFIG_PATH h := File (JSON_stringify (JObj fields'))]>
           (files w)
    /\ forall name,
         assoc name fields' =
           match given_value options name with
           | Some s => Some (JStr s)
           | None => assoc name fields
           end.
Proof. apply configure_run. Qed.

Lemma configure_merges_witness :
  exists fields',
    fst (LegacyCli.configure (sample_host true true true) (fun _ => "<saved>")
           (LegacyCli.mkConfigureOptions None None None None None
              (Some "dev/other"))
           (sample_world [stored_config])) = Ret tt
    /\ assoc "githubRepo" fields' = Some (JStr "dev/other")
    /\ assoc "appwriteKey" fields' = Some (JStr "key").
Proof.
  destruct (configure_merges (sample_host true true true) (fun _ => "<saved>")
              (LegacyCli.mkConfigureOptions None None None None None
                 (Some "dev/other"))
              (sample_world [stored_config])
              [ ("appwriteEndpoint", JStr "https://cloud.appwrite.io/v1");
                ("appwriteProject", JStr "proj");
                ("appwriteKey", JStr "key");
                ("appwriteBucket", JStr "bucket");
                ("githubToken", JStr "token");
                ("githubRepo", JStr "dev/builds") ])
    as (fields' & Hr & _ & Hf).
  { right. exists "<config>". split; reflexivity. }
  exists fields'. split; [exact Hr|].
  split; [exact (Hf "githubRepo") | exact (Hf "appwriteKey")].
Defined.

(** X9. After [configure] was given all six options, non-empty, the document
    it wrote passes the six-field test of [build], whatever was stored
    before. *)
Theorem full_configure_passes_validation (h : Host)
    (JSON_stringify : jsval -> string)
    (options : LegacyCli.ConfigureOptions) (w : World)
    (fields : list (string * jsval)) :
  stored_object h w fields ->
  Forall (fun name => is_Some (given_value options name)) required_fields ->
  exists fields',
    files (snd (LegacyCli.configure h JSON_stringify options w))
      !! Legacy.CONFIG_PATH h = Some (File (JSON_stringify (JObj fields')))
    /\ Legacy.missing_configuration (JObj fields') = Ret false.
Proof.
  intros Hs Hall.
  destruct (configure_run h JSON_stringify options w fields Hs)
    as (fields' & _ & Hw & Hf).
  exists fields'. split; [by rewrite Hw, lookup_insert_eq|].
  assert (forall name, In name required_fields ->
            truthy (default JUndefined (assoc name fields')) = true) as Ht.
  { intros name Hin. rewrite Hf.
    rewrite List.Forall_forall in Hall. destruct (Hall name Hin) as [s Hg].
    rewrite Hg. simpl. apply negb_true_iff, String.eqb_neq.
    unfold given_value, given in Hg.
    repeat match type of Hg with
           | context [String.eqb name ?k] => destruct (String.eqb name k)
           end; try done;
      match type of Hg with
      | context [match ?o with _ => _ end] =>
          destruct o as [s'|]; [|done];
          destruct (String.eqb s' "") eqn:E; [done|];
          injection Hg as <-; by apply String.eqb_neq
      end. }
  unfold Legacy.missing_configuration, js_get. simpl.
  rewrite !Ht; [done|unfold required_fields; simpl; tauto..].
Qed.

Lemma full_configure_passes_validation_witness :
  exists fields',
    files (snd (LegacyCli.configure (sample_host true true true)
                  (fun _ => "<saved>")
                  (LegacyCli.mkConfigureOptions (Some "https://a.example/v1")
                     (Some "p1") (Some "k1") (Some "b1") (Some "t1")
                     (Some "dev/builds"))
                  (sample_world [])))
      !! "/home/dev/.build-service.json" = Some (File "<saved>")
    /\ Legacy.missing_configuration (JObj fields') = Ret false.
Proof.
  apply (full_configure_passes_validation (sample_host true true true)
           (fun _ => "<saved>")
           (LegacyCli.mkConfigureOptions (Some "https://a.example/v1")
              (Some "p1") (Some "k1") (Some "b1") (Some "t1")
              (Some "dev/builds"))
           (sample_world []) []).
  - left. split; reflexivity.
  - repeat constructor; by eexists.
Defined.

(** X10. [configure] cannot repair a configuration file that does not
    parse: it throws the parser's error and the file is left as it was. *)
Theorem configure_keeps_corrupt_file (h : Host)
    (JSON_stringify : jsval -> string)
    (options : LegacyCli.ConfigureOptions) (w : World) (text : string) :
  files w !! Legacy.CONFIG_PATH h = Some (File text) ->
  JSON_parse h text = None ->
  fst (LegacyCli.configure h JSON_stringify options w)
    = Throw (SyntaxError "Unexpected token in JSON")
  /\ files (snd (LegacyCli.configure h JSON_stringify options w)) = files w.
Proof.
  intros Hf Hp. unfold LegacyCli.configure, Legacy.loadConfig.
  rewrite mbind_run, mbind_run, existsSync_run, Hf. cbv beta iota.
  rewrite mbind_run, readFileSync_run. simpl files. rewrite Hf.
  unfold json_parse. by rewrite Hp.
Qed.

Lemma configure_keeps_corrupt_file_witness :
  fst (LegacyCli.configure (sample_host true true true) (fun _ => "<saved>")
         (LegacyCli.mkConfigureOptions None None None None None
            (Some "dev/builds"))
         (sample_world [("/home/dev/.build-service.json", File "{oops")]))
    = Throw (SyntaxError "Unexpected token in JSON").
Proof.
  apply (configure_keeps_corrupt_file (sample_host true true true)
           (fun _ => "<saved>")
           (LegacyCli.mkConfigureOptions None None None None None
              (Some "dev/builds"))
           (sample_world [("/home/dev/.build-service.json", File "{oops")])
           "{oops"); reflexivity.
Defined.

(** X11. [config] shows the stored object with the two secrets replaced by
    their masked form and every other member as stored. *)
Theorem show_config_masks_secrets (h : Host) (w : World)
    (fields : list (string * jsval)) (maskedKey maskedToken : jsval) :
  stored_object h w fields ->
  LegacyCli.mask (js_field (JObj fields) "appwriteKey") = Ret maskedKey ->
  LegacyCli.mask (js_field (JObj fields) "githubToken") = Ret maskedToken ->
  exists shown,
    fst (LegacyCli.show_config h w) = Ret (JObj shown)
    /\ assoc "appwriteKey" shown = Some maskedKey
    /\ assoc "githubToken" shown = Some maskedToken
    /\ forall name,
         name <> "appwriteKey" -> name <> "githubToken" ->
         assoc name shown = assoc name fields.
Proof.
  intros Hs Hk Ht. destruct (legacy_loadConfig_stored h w fields Hs) as [t Hl].
  unfold LegacyCli.show_config. rewrite mbind_run, Hl. cbv beta iota.
  rewrite mbind_lift. unfold js_get. cbv beta iota.
  unfold js_field in Hk, Ht.
  rewrite mbind_lift, Hk. cbv beta iota.
  rewrite mbind_lift. cbv beta iota.
  rewrite mbind_lift, Ht. cbv beta iota.
  eexists. split; [reflexivity|]. simpl LegacyCli.spread.
  repeat split.
  - by rewrite !assoc_assoc_set.
  - by rewrite assoc_assoc_set.
  - intros name H1 H2. rewrite !assoc_assoc_set.
    apply String.eqb_neq in H1, H2. by rewrite H1, H2.
Qed.

Lemma show_config_masks_secrets_witness :
  exists shown,
    fst (LegacyCli.show_config (sample_host true true true)
           (sample_world [stored_config])) = Ret (JObj shown)
    /\ assoc "appwriteKey" shown = Some (JStr "***key")
    /\ assoc "githubToken" shown = Some (JStr "***oken").
Proof.
  destruct (show_config_masks_secrets (sample_host true true true)
              (sample_world [stored_config])
              [ ("appwriteEndpoint", JStr "https://cloud.appwrite.io/v1");
                ("appwriteProject", JStr "proj");
                ("appwriteKey", JStr "key");
                ("appwriteBucket", JStr "bucket");
                ("githubToken", JStr "token");
                ("githubRepo", JStr "dev/builds") ]
              (JStr "***key") (JStr "***oken"))
    as (shown & Hr & Hk & Ht & _);
    [right; exists "<config>"; split; reflexivity | reflexivity | reflexivity |].
  by exists shown.
Defined.

(** ** Further properties: the pipeline *)

(** X12. Without a usable configuration file (absent, a directory, or not
    parseable) [build] ends the process with status 1 having touched nothing
    but that file: no profile is read, nothing is packaged or sent. *)
Theorem build_stops_without_usable_config (h : Host) (options : Options)
    (w : World) :
  files w !! CONFIG_FILE h = None
  \/ files w !! CONFIG_FILE h = Some Dir
  \/ (exists text, files w !! CONFIG_FILE h = Some (File text)
                   /\ JSON_parse h text = None) ->
  exists t,
    build h options w = (Exit 1, log w t)
    /\ (t = [EvExists (CONFIG_FILE h)]
        \/ t = [EvExists (CONFIG_FILE h); EvRead (CONFIG_FILE h)]).
Proof.
  intros H. rewrite build_run. unfold build_steps.
  rewrite mbind_run, loadConfig_run.
  destruct H as [-> | [-> | (text & -> & ->)]]; eexists; split; eauto.
Qed.

Lemma build_stops_without_usable_config_witness :
  exists t,
    build (sample_host true true true) default_options
      (sample_world sample_project)
    = (Exit 1, log (sample_world sample_project) t)
    /\ (t = [EvExists "/home/dev/.build-service.json"]
        \/ t = [EvExists "/home/dev/.build-service.json";
                EvRead "/home/dev/.build-service.json"]).
Proof.
  apply (build_stops_without_usable_config (sample_host true true true)
           default_options (sample_world sample_project)).
  left. reflexivity.
Defined.

(** X13. Packaging writes to the output path only: every other path is as
    before, whether it returns or fails.  When it returns, the returned path
    is the output path, its last step was the archiver call, and the file
    there is what the archiver produced from the project root for the ignore
    list of that call. *)
Theorem packageProject_touches_only_output (h : Host) (projectPath : string)
    (excludePatterns : list string) (w : World) :
  let r := packageProject h projectPath excludePatterns w in
  let out := output_path h (clock w) in
  (forall p, p <> out -> files (snd r) !! p = files w !! p)
  /\ match fst r with
     | Ret path =>
         path = out
         /\ exists ignore bytes,
              last (trace (snd r)) = Some (EvArchive projectPath ignore)
              /\ archiver_tar h (<[out := File ""]> (files w)) projectPath
                   ignore = inr bytes
              /\ files (snd r) !! out = Some (File bytes)
     | _ => True
     end.
Proof.
  intros r out. subst r. rewrite packageProject_run, read_buildignore_run.
  simpl files. fold out.
  destruct (_ !! path_join h projectPath ".buildignore") as [[content|]|];
    try rewrite run_archiver_run; simpl files;
    try match goal with
        | |- context [archiver_tar h ?fs ?p ?ig] =>
            destruct (archiver_tar h fs p ig) as [e|bytes] eqn:Ea
        end; simpl; split;
    try (intros p Hp; by rewrite ?(lookup_insert_ne _ out p) by done);
    try done;
    (split; [done|]); eexists _, bytes;
    (split; [apply last_snoc|]); (split; [exact Ea|]);
    apply lookup_insert_eq.
Qed.

(** X14. Without a [.buildignore] the ignore list handed to the archiver is
    the built-in list followed by the caller's patterns, and the file is not
    read. *)
Theorem no_buildignore_uses_builtin (h : Host) (projectPath : string)
    (excludePatterns : list string) (w : World) :
  output_path h (clock w) <> path_join h projectPath ".buildignore" ->
  files w !! path_join h projectPath ".buildignore" = None ->
  trace (snd (packageProject h projectPath excludePatterns w)) =
    trace w ++
      [ EvCreate (output_path h (clock w));
        EvExists (path_join h projectPath ".buildignore");
        EvArchive projectPath (builtin_excludes ++ excludePatterns) ].
Proof.
  intros Hne Hf. rewrite packageProject_run, read_buildignore_run. simpl files.
  rewrite lookup_insert_ne by done. rewrite Hf.
  rewrite run_archiver_trace. unfold log. simpl trace.
  by rewrite <- !app_assoc.
Qed.

Lemma no_buildignore_uses_builtin_witness :
  trace (snd (packageProject (sample_host true true true) "/work/app"
                ["*.tmp"] (sample_world sample_project)))
  = [ EvCreate "/tmp/build-1767264765206.tar.gz";
      EvExists "/work/app/.buildignore";
      EvArchive "/work/app" (builtin_excludes ++ ["*.tmp"]) ].
Proof.
  apply (no_buildignore_uses_builtin (sample_host true true true) "/work/app"
           ["*.tmp"] (sample_world sample_project));
    [vm_compute; discriminate | reflexivity].
Defined.

(** X15. A [.buildignore] that is a directory makes packaging fail with the
    read error before the archiver is called. *)
Theorem buildignore_directory_fails (h : Host) (projectPath : string)
    (excludePatterns : list string) (w : World) :
  output_path h (clock w) <> path_join h projectPath ".buildignore" ->
  files w !! path_join h projectPath ".buildignore" = Some Dir ->
  fst (packageProject h projectPath excludePatterns w)
    = Throw (FsError "EISDIR" (path_join h projectPath ".buildignore"))
  /\ trace (snd (packageProject h projectPath excludePatterns w)) =
       trace w ++
         [ EvCreate (output_path h (clock w));
           EvExists (path_join h projectPath ".buildignore");
           EvRead (path_join h projectPath ".buildignore") ].
Proof.
  intros Hne Hf. rewrite packageProject_run, read_buildignore_run. simpl files.
  rewrite lookup_insert_ne by done. rewrite Hf. simpl. split; [done|].
  by rewrite <- !app_assoc.
Qed.

Lemma buildignore_directory_fails_witness :
  fst (packageProject (sample_host true true true) "/work/app" []
         (sample_world (("/work/app/.buildignore", Dir) :: sample_project)))
  = Throw (FsError "EISDIR" "/work/app/.buildignore").
Proof.
  apply (buildignore_directory_fails (sample_host true true true) "/work/app"
           [] (sample_world (("/work/app/.buildignore", Dir) :: sample_project)));
    [vm_compute; discriminate | reflexivity].
Defined.

Lemma uploadToAppwrite_sends (h : Host) (filePath : string) (config : jsval)
    (w : World) :
  sends is_upload (uploadToAppwrite h filePath config) w.
Proof.
  unfold sends, uploadToAppwrite.
  pose proof (js_get_never_exits config "appwriteEndpoint") as H1.
  pose proof (js_get_never_exits config "appwriteProject") as H2.
  pose proof (js_get_never_exits config "appwriteKey") as H3.
  pose proof (js_get_never_exits config "appwriteBucket") as H4.
  rewrite mbind_lift. destruct (js_get config "appwriteEndpoint"); [|sent|done].
  rewrite mbind_lift. destruct (js_get config "appwriteProject"); [|sent|done].
  rewrite mbind_lift. destruct (js_get config "appwriteKey"); [|sent|done].
  destruct (client_new h _ _ _); [sent|].
  rewrite mbind_run, readFileSync_run.
  destruct (files w !! filePath) as [[content|]|]; [|sent..].
  rewrite mbind_lift. destruct (js_get config "appwriteBucket"); [|sent|done].
  unfold mbind, emit, of_result. simpl.
  destruct (storage_createFile h _ _ _) as [e|file]; simpl; [sent|].
  pose proof (js_get_never_exits file "$id") as H5.
  unfold lift. destruct (js_get file "$id") as [id| |]; [|sent|done].
  pose proof (js_to_string_never_exits id) as H6.
  destruct (js_to_string id); [sent|sent|done].
Qed.

Lemma triggerBuild_sends (h : Host) (sourceUrl : string)
    (buildConfig : BuildConfig) (config : jsval) (w : World) :
  sends is_dispatch (triggerBuild h sourceUrl buildConfig config) w.
Proof.
  unfold sends, triggerBuild.
  pose proof (js_to_string_never_exits (getGradleCommand buildConfig)) as H1.
  pose proof (call_toUpperCase_never_exits (buildType buildConfig)) as H2.
  pose proof (js_get_never_exits config "githubRepo") as H3.
  pose proof (js_get_never_exits config "githubToken") as H4.
  rewrite mbind_run. unfold Date_now.
  rewrite mbind_lift.
  destruct (js_to_string (getGradleCommand buildConfig)); [|sent|done].
  rewrite mbind_lift.
  destruct (call_toUpperCase (buildType buildConfig)); [|sent|done].
  rewrite mbind_lift.
  destruct (js_get config "githubRepo") as [repo| |]; [|sent|done].
  pose proof (js_to_string_never_exits repo) as H5.
  rewrite mbind_lift. destruct (js_to_string repo); [|sent|done].
  rewrite mbind_lift.
  destruct (js_get config "githubToken") as [token| |]; [|sent|done].
  pose proof (js_to_string_never_exits token) as H6.
  rewrite mbind_lift. destruct (js_to_string token); [|sent|done].
  unfold mbind, emit, of_result. simpl.
  destruct (http_post h _ _ _) as [e|[ok status]]; simpl; [sent|].
  destruct ok; sent.
Qed.

Lemma local_network_calls (t : list event) :
  forallb is_local t = true -> network_calls t = [].
Proof.
  unfold network_calls, is_local. induction t as [|e t IH]; [done|]. simpl.
  intros H. apply andb_prop in H as [He Ht]. apply andb_prop in He as [He _].
  apply negb_true_iff in He. rewrite He. by apply IH.
Qed.

Lemma network_calls_app (t u : list event) :
  network_calls (t ++ u) = network_calls t ++ network_calls u.
Proof. unfold network_calls. apply List.filter_app. Qed.

(** The network calls of the [try] block of [build]. *)
Lemma build_steps_network (h : Host) (options : Options) (w : World) :
  let r := build_steps h options w in
  exists t,
    trace (snd r) = trace w ++ t
    /\ match fst r with
       | Ret _ =>
           exists e1 e2, is_upload e1 = true /\ is_dispatch e2 = true
                         /\ network_calls t = [e1; e2]
       | _ =>
           network_calls t = []
           \/ (exists e, is_upload e = true /\ network_calls t = [e])
           \/ (exists e1 e2, is_upload e1 = true /\ is_dispatch e2 = true
                             /\ network_calls t = [e1; e2])
       end.
Proof.
  intros r. subst r.
  set (Post := fun x : outcome BuildInfo * World =>
    exists t,
      trace (snd x) = trace w ++ t
      /\ match fst x with
         | Ret _ =>
             exists e1 e2, is_upload e1 = true /\ is_dispatch e2 = true
                           /\ network_calls t = [e1; e2]
         | _ =>
             network_calls t = []
             \/ (exists e, is_upload e = true /\ network_calls t = [e])
             \/ (exists e1 e2, is_upload e1 = true /\ is_dispatch e2 = true
                               /\ network_calls t = [e1; e2])
         end).
  change (Post (build_steps h options w)).
  assert (forall e t w', trace w' = trace w ++ t ->
            network_calls t = [] -> Post (Throw e, w')) as Hnone.
  { intros e t w' Ht Hn. exists t. split; [done|]. by left. }
  assert (forall e t w' e1, trace w' = trace w ++ t ->
            is_upload e1 = true -> network_calls t = [e1] ->
            Post (Throw e, w')) as Hone.
  { intros e t w' e1 Ht H1 Hn. exists t. split; [done|]. right. left.
    by exists e1. }
  unfold build_steps.
  (* loadConfig *)
  rewrite mbind_run.
  destruct (loadConfig_logs h w) as (Hx & t1 & Hw1 & Ht1).
  destruct (loadConfig h w) as [[config|e|c] w1]; simpl in Hx, Hw1; subst w1.
  2: { apply (Hnone e t1); [done|by apply local_network_calls]. }
  2: { exists t1. split; [done|]. left. by apply local_network_calls. }
  (* loadEasConfig *)
  rewrite mbind_run.
  match goal with
  | |- context [loadEasConfig h ?root (log w t1)] =>
      destruct (loadEasConfig_logs h root (log w t1))
        as (easConfig & t2 & -> & Ht2)
  end.
  rewrite log_log.
  pose proof (is_local_app _ _ Ht1 Ht2) as Ht12.
  (* mapProfileToConfig *)
  rewrite mbind_lift.
  match goal with
  | |- context [mapProfileToConfig ?p ?pc] =>
      pose proof (mapProfileToConfig_never_exits p pc) as Hne;
      destruct (mapProfileToConfig p pc) as [buildConfig|e|c]; [| |done]
  end.
  2: { apply (Hnone e (t1 ++ t2)); [done|by apply local_network_calls]. }
  clear Hne.
  (* packageProject *)
  rewrite mbind_run.
  match goal with
  | |- context [packageProject h ?root [] ?w0] =>
      pose proof (packageProject_summary h root [] w0)
        as (Hne & (t3 & Htr3 & Ht3) & Hret);
      destruct (packageProject h root [] w0) as [[packagePath|e|c] w3];
      simpl in Hne, Htr3, Hret; [| |done]
  end.
  all: assert (trace w3 = trace w ++ ((t1 ++ t2) ++ t3)) as Htr3'
         by (by rewrite Htr3, <- app_assoc);
       assert (network_calls ((t1 ++ t2) ++ t3) = []) as Hn3
         by (by apply local_network_calls, is_local_app).
  2: { by apply (Hnone e _ _ Htr3'). }
  clear Htr3 Ht1 Ht2 Ht3 Ht12 Hret.
  (* uploadToAppwrite *)
  rewrite mbind_run.
  destruct (uploadToAppwrite_sends h packagePath config w3)
    as (Hne4 & _ & t4 & Htr4 & Hs4).
  destruct (uploadToAppwrite h packagePath config w3) as [[file|e|c] w4];
    simpl in Hne4, Htr4, Hs4; [| |done].
  all: pose proof (trace_chain _ _ _ _ _ Htr3' Htr4) as Htr4'.
  2: { destruct Hs4 as [Hs4 | (e1 & H1 & Hs4)].
       - apply (Hnone e _ _ Htr4'). by rewrite network_calls_app, Hn3, Hs4.
       - apply (Hone e _ _ e1 Htr4' H1). by rewrite network_calls_app, Hn3, Hs4. }
  destruct Hs4 as (e1 & H1 & Hs4).
  assert (network_calls (((t1 ++ t2) ++ t3) ++ t4) = [e1]) as Hn4
    by (by rewrite network_calls_app, Hn3, Hs4).
  (* the source URL *)
  pose proof (js_get_never_exits config "appwriteEndpoint") as G1.
  rewrite mbind_lift.
  destruct (js_get config "appwriteEndpoint") as [endpoint|e|];
    [|by apply (Hone e _ _ e1 Htr4')|done].
  pose proof (js_to_string_never_exits endpoint) as G2.
  rewrite mbind_lift.
  destruct (js_to_string endpoint) as [endpoint'|e|];
    [|by apply (Hone e _ _ e1 Htr4')|done].
  pose proof (js_get_never_exits config "appwriteBucket") as G3.
  rewrite mbind_lift.
  destruct (js_get config "appwriteBucket") as [bucket|e|];
    [|by apply (Hone e _ _ e1 Htr4')|done].
  pose proof (js_to_string_never_exits bucket) as G4.
  rewrite mbind_lift.
  destruct (js_to_string bucket) as [bucket'|e|];
    [|by apply (Hone e _ _ e1 Htr4')|done].
  pose proof (js_get_never_exits file "$id") as G5.
  rewrite mbind_lift.
  destruct (js_get file "$id") as [id|e|];
    [|by apply (Hone e _ _ e1 Htr4')|done].
  pose proof (js_to_string_never_exits id) as G6.
  rewrite mbind_lift.
  destruct (js_to_string id) as [ids|e|];
    [|by apply (Hone e _ _ e1 Htr4')|done].
  (* triggerBuild *)
  rewrite mbind_run.
  match goal with
  | |- context [triggerBuild h ?url buildConfig config w4] =>
      destruct (triggerBuild_sends h url buildConfig config w4)
        as (Hne5 & _ & t5 & Htr5 & Hs5);
      destruct (triggerBuild h url buildConfig config w4) as [[buildId|e|c] w5];
      simpl in Hne5, Htr5, Hs5; [| |done]
  end.
  all: pose proof (trace_chain _ _ _ _ _ Htr4' Htr5) as Htr5'.
  2: { exists ((((t1 ++ t2) ++ t3) ++ t4) ++ t5). split; [done|].
       rewrite network_calls_app, Hn4. right.
       destruct Hs5 as [-> | (e2 & H2 & ->)]; [left|right]; simpl; eauto. }
  destruct Hs5 as (e2 & H2 & Hs5).
  assert (network_calls ((((t1 ++ t2) ++ t3) ++ t4) ++ t5) = [e1; e2]) as Hn5
    by (by rewrite network_calls_app, Hn4, Hs5).
  (* unlinkSync *)
  rewrite mbind_run, unlinkSync_run.
  destruct (files w5 !! packagePath) as [[content|]|].
  2,3: exists (((((t1 ++ t2) ++ t3) ++ t4) ++ t5) ++ [EvUnlink packagePath]);
       (split; [by simpl; rewrite Htr5', <- app_assoc|]);
       right; right; exists e1, e2; repeat split; try done;
       by rewrite network_calls_app, Hn5.
  rewrite mbind_lift.
  pose proof (call_toUpperCase_never_exits (buildType buildConfig)) as G7.
  destruct (call_toUpperCase (buildType buildConfig)); [| |done].
  all: exists (((((t1 ++ t2) ++ t3) ++ t4) ++ t5) ++ [EvUnlink packagePath]);
       (split; [by simpl; rewrite Htr5', <- app_assoc|]); simpl.
  - exists e1, e2. repeat split; try done. by rewrite network_calls_app, Hn5.
  - right. right. exists e1, e2. repeat split; try done.
    by rewrite network_calls_app, Hn5.
Qed.

(** X16. In every run of [build] the network calls are, in this order, at
    most one upload to the storage service and at most one dispatch, and a
    dispatch is only made after an upload; a run that completes has made
    exactly one of each.  Nothing is retried. *)
Theorem network_calls_in_order (h : Host) (options : Options) (w : World) :
  exists t,
    trace (snd (build h options w)) = trace w ++ t
    /\ (network_calls t = []
        \/ (exists e, is_upload e = true /\ network_calls t = [e])
        \/ (exists e1 e2, is_upload e1 = true /\ is_dispatch e2 = true
                          /\ network_calls t = [e1; e2]))
    /\ (forall info, fst (build h options w) = Ret info ->
        exists e1 e2, is_upload e1 = true /\ is_dispatch e2 = true
                      /\ network_calls t = [e1; e2]).
Proof.
  rewrite build_run.
  destruct (build_steps_network h options w) as (t & Ht & Hs).
  destruct (build_steps h options w) as [[info|e|c] w']; simpl in *;
    exists t; (split; [done|]); split; try done.
  right. by right.
Qed.

Lemma loadEasConfig_value (h : Host) (projectPath : string) (w : World) :
  exists v,
    forall w', files w' = files w ->
      exists t, loadEasConfig h projectPath w' = (Ret v, log w' t)
                /\ forallb is_local t = true.
Proof.
  destruct (files w !! path_join h projectPath "eas.json") as [[text|]|] eqn:E;
    eexists; intros w' Hf; rewrite loadEasConfig_run, Hf, E; by eexists.
Qed.

Lemma mapProfileToConfig_renders (profile : string) (pc : jsval)
    (cfg : BuildConfig) :
  mapProfileToConfig profile pc = Ret cfg ->
  exists s, js_to_string (getGradleCommand cfg) = Ret s.
Proof.
  intros Hm. destruct (printable_android pc) eqn:Hp.
  - destruct (mapProfileToConfig_returns profile pc Hp) as (cfg' & Hm' & _ & _ & Hg).
    rewrite Hm in Hm'. injection Hm' as <-.
    unfold getGradleCommand. rewrite Hg.
    unfold printable_android in Hp. apply andb_prop in Hp as [_ Hr].
    destruct (truthy (declared_gradleCommand pc)) eqn:Ht.
    + rewrite Ht. unfold renders in Hr.
      destruct (js_to_string (declared_gradleCommand pc)); [by eexists|done..].
    + simpl. destruct (strict_eq_str (buildType cfg) "aab"); by eexists.
  - destruct (mapProfileToConfig_unprintable profile pc Hp) as [msg Hm'].
    by rewrite Hm in Hm'.
Qed.

Lemma packageProject_returns (h : Host) (projectPath : string)
    (excludePatterns : list string) (w : World) (patterns : list string)
    (bytes : string) :
  let out := output_path h (clock w) in
  let fs := <[out := File ""]> (files w) in
  reads_patterns h projectPath fs patterns ->
  archiver_tar h fs projectPath (all_excludes patterns excludePatterns)
    = inr bytes ->
  exists t,
    packageProject h projectPath excludePatterns w
      = (Ret out,
         mkWorld (<[out := File bytes]> fs) (clock_after h (clock w))
           (trace w ++ t))
    /\ forallb is_local t = true.
Proof.
  intros out fs Hr Ha.
  rewrite packageProject_run, read_buildignore_run. simpl files.
  fold out. fold fs.
  destruct Hr as [[Hn ->] | (content & Hc & ->)].
  - rewrite Hn. cbv beta iota. rewrite run_archiver_run. simpl files.
    rewrite Ha. eexists. split; [|shelve]. simpl. by rewrite <- !app_assoc.
    Unshelve. done.
  - rewrite Hc. cbv beta iota. rewrite run_archiver_run. simpl files.
    rewrite Ha. eexists. split; [|shelve]. simpl. by rewrite <- !app_assoc.
    Unshelve. done.
Qed.

Lemma uploadToAppwrite_returns (h : Host) (filePath content : string)
    (fields : list (string * jsval)) (w : World) (file id : jsval)
    (ids : string) :
  client_new h (js_field (JObj fields) "appwriteEndpoint")
    (js_field (JObj fields) "appwriteProject")
    (js_field (JObj fields) "appwriteKey") = None ->
  files w !! filePath = Some (File content) ->
  storage_createFile h (js_field (JObj fields) "appwriteBucket") content
    (path_basename h filePath) = inr file ->
  js_get file "$id" = Ret id ->
  js_to_string id = Ret ids ->
  uploadToAppwrite h filePath (JObj fields) w =
    (Ret file,
     log w [ EvRead filePath;
             EvUpload (js_field (JObj fields) "appwriteBucket")
               (path_basename h filePath) ]).
Proof.
  intros Hc Hf Hs Hid Hids.
  unfold uploadToAppwrite, readFileSync, mbind, lift, emit, of_result, mret,
    throw, log, js_field in *.
  simpl in *. rewrite Hc. simpl. rewrite Hf. simpl. rewrite Hs. simpl.
  rewrite Hid, Hids. simpl. by rewrite <- app_assoc.
Qed.

Lemma triggerBuild_returns (h : Host) (sourceUrl : string)
    (cfg : BuildConfig) (fields : list (string * jsval)) (w : World)
    (command repo token status : string) :
  let url := "https://api.github.com/repos/" +:+ repo +:+ "/dispatches" in
  let payload := dispatch_payload sourceUrl (pretty (clock w)) cfg in
  js_to_string (getGradleCommand cfg) = Ret command ->
  is_string (buildType cfg) = true ->
  js_to_string (js_field (JObj fields) "githubRepo") = Ret repo ->
  js_to_string (js_field (JObj fields) "githubToken") = Ret token ->
  http_post h url token payload = inr (true, status) ->
  triggerBuild h sourceUrl cfg (JObj fields) w =
    (Ret (pretty (clock w)),
     mkWorld (files w) (clock_after h (clock w))
       (trace w ++ [EvDispatch url payload])).
Proof.
  intros url payload Hc Hs Hr Ht Hp.
  unfold triggerBuild, Date_now, mbind, lift, emit, of_result, mret, throw.
  unfold js_field in Hr, Ht. simpl in Hr, Ht.
  simpl. rewrite Hc. destruct (buildType cfg); try done. simpl.
  rewrite Hr, Ht. simpl. fold url. fold payload. by rewrite Hp.
Qed.

Lemma js_get_object (fields : list (string * jsval)) (name : string) :
  js_get (JObj fields) name = Ret (js_field (JObj fields) name).
Proof. reflexivity. Qed.

(** X17. [build] completes when the stored configuration is an object whose
    endpoint, bucket, repository and token are strings, the resolver returns
    a configuration, [.buildignore] is absent or a file, and the calls the
    run makes succeed: the archiver on the project root with the run's ignore
    list, the SDK client on the stored endpoint, project and key, the storage
    service on the archive, and the dispatch request on the run's address,
    token and payload.  The run then reports the second reading of the clock
    as build id (the first names the archive) and the uploaded file's id; its
    network calls are that upload and that dispatch, whose payload is built
    from the resolved configuration and the download address of the file;
    and the temporary archive is gone. *)
Theorem build_completes (h : Host) (options : Options) (w : World)
    (text : string) (fields : list (string * jsval)) (cfg : BuildConfig)
    (endpoint bucket repo token ids bytes status : string)
    (patterns : list string) (file : jsval) :
  let root := project_root h options in
  let out := output_path h (clock w) in
  let fs := <[out := File ""]> (files w) in
  let buildId := pretty (clock_after h (clock w)) in
  let url := "https://api.github.com/repos/" +:+ repo +:+ "/dispatches" in
  let payload :=
    dispatch_payload
      (endpoint +:+ "/storage/buckets/" +:+ bucket +:+ "/files/" +:+ ids
         +:+ "/download")
      buildId cfg in
  files w !! CONFIG_FILE h = Some (File text) ->
  JSON_parse h text = Some (JObj fields) ->
  js_field (JObj fields) "appwriteEndpoint" = JStr endpoint ->
  js_field (JObj fields) "appwriteBucket" = JStr bucket ->
  js_field (JObj fields) "githubRepo" = JStr repo ->
  js_field (JObj fields) "githubToken" = JStr token ->
  fst (resolve h root (effective_profile options) w) = Ret cfg ->
  reads_patterns h root fs patterns ->
  archiver_tar h fs root (all_excludes patterns []) = inr bytes ->
  client_new h (JStr endpoint) (js_field (JObj fields) "appwriteProject")
    (js_field (JObj fields) "appwriteKey") = None ->
  storage_createFile h (JStr bucket) bytes (path_basename h out) = inr file ->
  js_get file "$id" = Ret (JStr ids) ->
  http_post h url token payload = inr (true, status) ->
  exists w' t,
    build h options w
      = (Ret {| info_buildId := buildId; info_fileId := JStr ids |}, w')
    /\ trace w' = trace w ++ t
    /\ network_calls t =
         [EvUpload (JStr bucket) (path_basename h out); EvDispatch url payload]
    /\ files w' !! out = None.
Proof.
  intros root out fs buildId url payload
    Hf Hp He Hb Hr Ht Hres Hpat Ha Hc Hs Hid Hpost.
  rewrite build_run. unfold build_steps.
  fold (project_root h options). fold (effective_profile options).
  fold root. set (profile := effective_profile options) in *.
  (* loadConfig *)
  rewrite mbind_run, loadConfig_run, Hf, Hp. cbv beta iota.
  (* loadEasConfig and mapProfileToConfig *)
  destruct (loadEasConfig_value h root w) as [easConfig Heas].
  destruct (Heas w eq_refl) as (t0 & H0 & _).
  unfold resolve in Hres. rewrite mbind_run, H0 in Hres. simpl in Hres.
  destruct (Heas (log w [EvExists (CONFIG_FILE h); EvRead (CONFIG_FILE h)])
              eq_refl) as (t2 & H2 & Hl2).
  rewrite mbind_run, H2. cbv beta iota.
  rewrite mbind_lift, Hres. cbv beta iota.
  destruct (mapProfileToConfig_renders _ _ _ Hres) as [command Hcmd].
  destruct (mapProfileToConfig_wellformed _ _ _ Hres) as [Hstr _].
  (* packageProject *)
  rewrite log_log.
  match goal with
  | |- context [mbind (packageProject h root []) _ ?w0] =>
      destruct (packageProject_returns h root [] w0 patterns bytes Hpat Ha)
        as (t3 & Hpk & Hl3)
  end.
  rewrite mbind_run, Hpk. simpl clock. simpl files. simpl trace.
  fold out. fold fs. cbv beta iota.
  (* uploadToAppwrite *)
  rewrite mbind_run.
  rewrite (uploadToAppwrite_returns h out bytes fields _ file (JStr ids) ids);
    [| by rewrite He | apply lookup_insert_eq | by rewrite Hb | done | done].
  cbv beta iota.
  rewrite mbind_lift, js_get_object, He. cbv beta iota.
  rewrite mbind_lift. simpl js_to_string. cbv beta iota.
  rewrite mbind_lift, js_get_object, Hb. cbv beta iota.
  rewrite mbind_lift. simpl js_to_string. cbv beta iota.
  rewrite mbind_lift, Hid. cbv beta iota.
  rewrite mbind_lift. simpl js_to_string. cbv beta iota.
  (* triggerBuild *)
  rewrite mbind_run.
  rewrite (triggerBuild_returns h _ cfg fields _ command repo token status
             Hcmd Hstr);
    [| by rewrite Hr | by rewrite Ht | exact Hpost].
  cbv beta iota. simpl clock. simpl files. simpl trace.
  fold buildId. fold url. fold payload.
  (* unlinkSync *)
  rewrite mbind_run, unlinkSync_run. simpl files.
  rewrite lookup_insert_eq. cbv beta iota.
  rewrite mbind_lift.
  destruct (buildType cfg); try done. simpl.
  eexists _, _. split; [reflexivity|]. simpl. split; [|split].
  - rewrite <- !app_assoc. reflexivity.
  - change (EvExists (CONFIG_FILE h) :: EvRead (CONFIG_FILE h) :: t2)
      with ([EvExists (CONFIG_FILE h); EvRead (CONFIG_FILE h)] ++ t2).
    rewrite !network_calls_app.
    by rewrite (local_network_calls t2 Hl2), (local_network_calls t3 Hl3).
  - apply lookup_delete_eq.
Qed.

Lemma build_completes_witness :
  exists w' t,
    build (sample_host true true true) default_options
      (sample_world (stored_config :: sample_project))
    = (Ret {| info_buildId := "1767264767623";
              info_fileId := JStr "6956460a0030d25a9af6" |}, w')
    /\ trace w' = [] ++ t
    /\ network_calls t =
         [ EvUpload (JStr "bucket") "build-1767264765206.tar.gz";
           EvDispatch "https://api.github.com/repos/dev/builds/dispatches"
             (dispatch_payload
                "https://cloud.appwrite.io/v1/storage/buckets/bucket/files/6956460a0030d25a9af6/download"
                "1767264767623"
                {| variant := "release"; buildType := JStr "aab";
                   gradleCommand := JNull; env := JObj [];
                   autoIncrement := true;
                   distribution := JStr "internal" |}) ]
    /\ files w' !! "/tmp/build-1767264765206.tar.gz" = None.
Proof.
  apply (build_completes (sample_host true true true) default_options
           (sample_world (stored_config :: sample_project))
           "<config>"
           [ ("appwriteEndpoint", JStr "https://cloud.appwrite.io/v1");
             ("appwriteProject", JStr "proj");
             ("appwriteKey", JStr "key");
             ("appwriteBucket", JStr "bucket");
             ("githubToken", JStr "token");
             ("githubRepo", JStr "dev/builds") ]
           {| variant := "release"; buildType := JStr "aab";
              gradleCommand := JNull; env := JObj [];
              autoIncrement := true; distribution := JStr "internal" |}
           "https://cloud.appwrite.io/v1" "bucket" "dev/builds" "token"
           "6956460a0030d25a9af6"
           "/work/app/eas.json,/work/app/App.js"
           "204 No Content" []
           (JObj [("$id", JStr "6956460a0030d25a9af6")]));
    try reflexivity.
  left. split; reflexivity.
Defined.

(** X18. The plain tool's [build] on a project directory it cannot list
    (missing, or not a directory) ends the process with status 1 before any
    upload or dispatch; the temporary directory it created first is left
    behind. *)
Theorem legacy_unreadable_root_exits (h : Host) (projectPath : string)
    (options : Legacy.BuildOptions) (w : World) (text : string)
    (config : jsval) (e : js_error) :
  files w !! Legacy.CONFIG_PATH h = Some (File text) ->
  JSON_parse h text = Some config ->
  Legacy.missing_configuration config = Ret false ->
  readdirSync h
    (<[path_join h (tmpdir h) ("build-service-" +:+ pretty (clock w)) := Dir]>
       (files w))
    projectPath = inl e ->
  let tempDir :=
    path_join h (tmpdir h) ("build-service-" +:+ pretty (clock w)) in
  exists w',
    Legacy.build h projectPath options w = (Exit 1, w')
    /\ trace w' =
         trace w ++ [ EvExists (Legacy.CONFIG_PATH h);
                      EvRead (Legacy.CONFIG_PATH h); EvCreate tempDir ]
    /\ files w' !! tempDir = Some Dir.
Proof.
  intros Hf Hp Hm Hr tempDir. unfold Legacy.build, try_catch.
  rewrite mbind_run. unfold Legacy.loadConfig.
  rewrite mbind_run, existsSync_run, Hf. cbv beta iota.
  rewrite mbind_run, readFileSync_run. simpl files. rewrite Hf, log_log.
  unfold json_parse. rewrite Hp. unfold mret at 1. cbv beta iota.
  rewrite mbind_lift, Hm. cbv beta iota.
  unfold Date_now, Legacy.mkdirSync, mbind, emit, of_result. simpl.
  rewrite Hr. simpl. fold tempDir.
  eexists. split; [reflexivity|]. simpl. split.
  - by rewrite <- app_assoc.
  - apply lookup_insert_eq.
Qed.

Lemma legacy_unreadable_root_exits_witness :
  exists w',
    Legacy.build (sample_host true true true) "/nope"
      (Legacy.mkBuildOptions "android" "release" false)
      (sample_world (stored_config :: sample_project)) = (Exit 1, w')
    /\ trace w' =
         [ EvExists "/home/dev/.build-service.json";
           EvRead "/home/dev/.build-service.json";
           EvCreate "/tmp/build-service-1767264765206" ]
    /\ files w' !! "/tmp/build-service-1767264765206" = Some Dir.
Proof.
  apply (legacy_unreadable_root_exits (sample_host true true true) "/nope"
           (Legacy.mkBuildOptions "android" "release" false)
           (sample_world (stored_config :: sample_project))
           "<config>" sample_config (FsError "ENOENT" "/nope"));
    reflexivity.
Defined.

(** X19. When the profile document parses and its [build] collection has a
    member of the requested name, the resolver's result is the mapping of
    that member: nothing else of the document is looked at. *)
Theorem resolve_maps_named_profile (h : Host) (projectPath profile : string)
    (w : World) (text : string) (doc pc : jsval) :
  files w !! path_join h projectPath "eas.json" = Some (File text) ->
  JSON_parse h text = Some doc ->
  own_property (js_get_opt doc "build") profile = Some pc ->
  fst (resolve h projectPath profile w) = mapProfileToConfig profile pc.
Proof.
  intros Hf Hp Ho. unfold resolve. rewrite mbind_run, loadEasConfig_run, Hf, Hp.
  simpl. unfold js_index_opt. rewrite Ho.
  by destruct (js_get_opt doc "build").
Qed.

Lemma resolve_maps_named_profile_witness :
  fst (resolve (sample_host true true true) "/work/app" "development"
         (sample_world sample_project))
  = Ret (set_variant "debug" default_config).
Proof.
  apply (resolve_maps_named_profile (sample_host true true true) "/work/app"
           "development" (sample_world sample_project) "<eas>" sample_eas
           (JObj [("developmentClient", JBool true)])); reflexivity.
Defined.

(** X20. The plain tool's [build] completes when the stored object passes the
    six-field test with string values for the endpoint, project, bucket,
    token and repository, the project directory can be listed, and the calls
    the run makes succeed: tar on the listed entries that are not excluded,
    the SDK client on the stored endpoint, project and key, the storage
    service on the archive, and the dispatch request on the run's address,
    token and payload.  The run then returns the clock reading as build id;
    its network calls are that upload and that dispatch, sent to the address
    made of the first two slash-separated parts of the repository with the
    download address of the file and the platform option in the payload; and
    the temporary directory and the archive in it are removed. *)
Theorem legacy_build_completes (h : Host) (projectPath : string)
    (options : Legacy.BuildOptions) (w : World) (text : string)
    (fields : list (string * jsval)) (names : list string)
    (endpoint bucket project token repository ids bytes status : string)
    (file : jsval) :
  let buildId := pretty (clock w) in
  let tempDir := path_join h (tmpdir h) ("build-service-" +:+ buildId) in
  let archivePath := path_join h tempDir "project.tar.gz" in
  let fs := <[tempDir := Dir]> (files w) in
  let entries :=
    List.filter (fun n => negb (Legacy.includes Legacy.exclude n)) names in
  let url :=
    "https://api.github.com/repos/"
      +:+ nth 0 (split_on "/" repository) "undefined" +:+ "/"
      +:+ nth 1 (split_on "/" repository) "undefined" +:+ "/dispatches" in
  let payload :=
    JObj [ ("event_type", JStr "remote-build");
           ("client_payload",
            JObj [ ("source_url",
                    JStr (endpoint +:+ "/storage/buckets/" +:+ bucket
                            +:+ "/files/" +:+ ids +:+ "/download?project="
                            +:+ project));
                   ("build_id", JStr buildId);
                   ("platform", JStr (Legacy.opt_platform options));
                   ("variant",
                    JStr (or_else (Some (Legacy.opt_variant options))
                            "release")) ]) ] in
  files w !! Legacy.CONFIG_PATH h = Some (File text) ->
  JSON_parse h text = Some (JObj fields) ->
  Legacy.missing_configuration (JObj fields) = Ret false ->
  js_field (JObj fields) "appwriteEndpoint" = JStr endpoint ->
  js_field (JObj fields) "appwriteBucket" = JStr bucket ->
  js_field (JObj fields) "appwriteProject" = JStr project ->
  js_field (JObj fields) "githubToken" = JStr token ->
  js_field (JObj fields) "githubRepo" = JStr repository ->
  readdirSync h fs projectPath = inr names ->
  tar_create h fs projectPath entries = inr bytes ->
  client_new h (JStr endpoint) (JStr project)
    (js_field (JObj fields) "appwriteKey") = None ->
  storage_createFile h (JStr bucket) bytes "project.tar.gz" = inr file ->
  js_get file "$id" = Ret (JStr ids) ->
  http_post h url token payload = inr (true, status) ->
  exists w' t,
    Legacy.build h projectPath options w = (Ret buildId, w')
    /\ trace w' = trace w ++ t
    /\ network_calls t =
         [EvUpload (JStr bucket) "project.tar.gz"; EvDispatch url payload]
    /\ files w' !! tempDir = None
    /\ files w' !! archivePath = None.
Proof.
  intros buildId tempDir archivePath fs entries url payload
    Hf Hp Hm He Hb Hpr Ht Hrepo Hrd Htar Hc Hs Hid Hpost.
  unfold Legacy.build, try_catch.
  rewrite mbind_run. unfold Legacy.loadConfig.
  rewrite mbind_run, existsSync_run, Hf. cbv beta iota.
  rewrite mbind_run, readFileSync_run. simpl files. rewrite Hf, log_log.
  unfold json_parse. rewrite Hp. unfold mret at 1. cbv beta iota.
  rewrite mbind_lift, Hm. cbv beta iota.
  unfold js_field in He, Hb, Hpr, Ht, Hrepo, Hc.
  simpl in He, Hb, Hpr, Ht, Hrepo, Hc.
  unfold Date_now, Legacy.mkdirSync, Legacy.rmSync, readFileSync, write_file,
    mbind, lift, emit, of_result, mret, throw, log.
  simpl. fold buildId. fold tempDir. fold fs. rewrite Hrd. simpl.
  match goal with
  | |- context [tar_create h ?f ?p ?en] =>
      change (tar_create h f p en) with (tar_create h fs projectPath entries)
  end.
  rewrite Htar. simpl.
  rewrite He, Hpr. simpl. rewrite Hc. cbn [files clock trace].
  fold archivePath. rewrite lookup_insert_eq. simpl.
  rewrite Hb. simpl. rewrite Hs, Hid. simpl.
  rewrite Hrepo. simpl. rewrite Ht. simpl.
  match goal with
  | |- context [http_post h ?u ?b ?p] =>
      change (http_post h u b p) with (http_post h url token payload)
  end.
  rewrite Hpost.
  simpl. eexists _, _. split; [reflexivity|]. simpl.
  split; [by rewrite <- !app_assoc|]. split; [reflexivity|]. split.
  - apply lookup_delete_eq.
  - apply lookup_delete_None. right. apply lookup_delete_eq.
Qed.

Lemma legacy_build_completes_witness :
  exists w' t,
    Legacy.build (sample_host true true true) "/work/app"
      (Legacy.mkBuildOptions "android" "release" false)
      (sample_world (stored_config :: sample_project))
    = (Ret "1767264765206", w')
    /\ trace w' = [] ++ t
    /\ network_calls t =
         [ EvUpload (JStr "bucket") "project.tar.gz";
           EvDispatch "https://api.github.com/repos/dev/builds/dispatches"
             (JObj [ ("event_type", JStr "remote-build");
                     ("client_payload",
                      JObj [ ("source_url",
                              JStr "https://cloud.appwrite.io/v1/storage/buckets/bucket/files/6956460a0030d25a9af6/download?project=proj");
                             ("build_id", JStr "1767264765206");
                             ("platform", JStr "android");
                             ("variant", JStr "release") ]) ]) ]
    /\ files w' !! "/tmp/build-service-1767264765206" = None
    /\ files w' !! "/tmp/build-service-1767264765206/project.tar.gz" = None.
Proof.
  apply (legacy_build_completes (sample_host true true true) "/work/app"
           (Legacy.mkBuildOptions "android" "release" false)
           (sample_world (stored_config :: sample_project))
           "<config>"
           [ ("appwriteEndpoint", JStr "https://cloud.appwrite.io/v1");
             ("appwriteProject", JStr "proj");
             ("appwriteKey", JStr "key");
             ("appwriteBucket", JStr "bucket");
             ("githubToken", JStr "token");
             ("githubRepo", JStr "dev/builds") ]
           ["eas.json"; "App.js"]
           "https://cloud.appwrite.io/v1" "bucket" "proj" "token"
           "dev/builds" "6956460a0030d25a9af6" "eas.json,App.js"
           "204 No Content"
           (JObj [("$id", JStr "6956460a0030d25a9af6")]));
    vm_compute; reflexivity.
Defined.

(** Packaging leaves every path other than its output path as it was. *)
Lemma packageProject_frame (h : Host) (projectPath : string)
    (excludePatterns : list string) (w : World) (p : string) :
  p <> output_path h (clock w) ->
  files (snd (packageProject h projectPath excludePatterns w)) !! p
    = files w !! p.
Proof.
  intros Hp. rewrite packageProject_run, read_buildignore_run.
  simpl files. set (out := output_path h (clock w)) in *.
  destruct (_ !! path_join h projectPath ".buildignore") as [[content|]|];
    try rewrite run_archiver_run; simpl files;
    try match goal with
        | |- context [archiver_tar h ?fs ?q ?ig] =>
            destruct (archiver_tar h fs q ig) as [e|bytes]
        end; simpl;
    by rewrite ?(lookup_insert_ne _ out p) by done.
Qed.

Lemma build_steps_frame (h : Host) (options : Options) (w : World)
    (p : string) :
  p <> output_path h (clock w) ->
  files (snd (build_steps h options w)) !! p = files w !! p.
Proof.
  intros Hp.
  set (root := project_root h options).
  set (Post := fun x : outcome BuildInfo * World =>
    files (snd x) !! p = files w !! p).
  change (Post (build_steps h options w)).
  unfold build_steps. fold (project_root h options). fold root.
  rewrite mbind_run.
  destruct (loadConfig_logs h w) as (_ & t1 & Hw1 & _).
  destruct (loadConfig h w) as [[config|e|c] w1]; simpl in Hw1; subst w1;
    [|done..].
  rewrite mbind_run.
  destruct (loadEasConfig_logs h root (log w t1)) as (easConfig & t2 & -> & _).
  rewrite log_log, mbind_lift.
  match goal with
  | |- context [mapProfileToConfig ?pr ?pc] =>
      destruct (mapProfileToConfig pr pc) as [buildConfig|e|c]; [|done..]
  end.
  rewrite mbind_run.
  pose proof (packageProject_frame h root [] (log w (t1 ++ t2)) p Hp) as Hf3.
  pose proof (packageProject_summary h root [] (log w (t1 ++ t2)))
    as (_ & _ & Hret).
  destruct (packageProject h root [] (log w (t1 ++ t2)))
    as [[packagePath|e|c] w3]; simpl in Hf3, Hret; [|done..].
  destruct Hret as [-> _].
  rewrite mbind_run.
  destruct (uploadToAppwrite_logs h (output_path h (clock w)) config w3)
    as (_ & Hf4 & _).
  destruct (uploadToAppwrite h (output_path h (clock w)) config w3)
    as [[file|e|c] w4]; simpl in Hf4;
    [|unfold Post; simpl; by rewrite Hf4..].
  repeat (rewrite mbind_lift;
          match goal with
          | |- Post (match ?o with _ => _ end) =>
              destruct o; [|unfold Post; simpl; by rewrite Hf4..]
          end).
  rewrite mbind_run.
  match goal with
  | |- context [triggerBuild h ?url buildConfig config w4] =>
      destruct (triggerBuild_logs h url buildConfig config w4)
        as (_ & Hf5 & _);
      destruct (triggerBuild h url buildConfig config w4) as [[buildId|e|c] w5];
      simpl in Hf5; [|unfold Post; simpl; by rewrite Hf5, Hf4..]
  end.
  rewrite mbind_run, unlinkSync_run.
  destruct (files w5 !! output_path h (clock w)) as [[bytes|]|];
    [|unfold Post; simpl; by rewrite Hf5, Hf4..].
  rewrite mbind_lift.
  match goal with
  | |- Post (match ?o with _ => _ end) =>
      destruct o; unfold Post; simpl;
      by rewrite lookup_delete_ne, Hf5, Hf4 by done
  end.
Qed.

(** X21. Whatever a run of [build] does, the only path of the file system
    it changes is the archive it writes into the temporary directory:
    reading the configuration and the profile, uploading and dispatching
    write nothing.  A run that completes has removed its archive as well: it
    leaves the file system as it found it, with the archive's path free. *)
Theorem build_footprint (h : Host) (options : Options) (w : World) :
  let r := build h options w in
  let out := output_path h (clock w) in
  (forall p, p <> out -> files (snd r) !! p = files w !! p)
  /\ match fst r with
     | Ret _ => files (snd r) = delete out (files w)
     | _ => True
     end.
Proof.
  intros r out. subst r. rewrite build_run.
  pose proof (build_steps_run h options w) as (_ & t & _ & Hr).
  pose proof (build_steps_frame h options w) as Hf.
  destruct (build_steps h options w) as [[info|e|c] w']; simpl in *;
    (split; [done|]); [|done..].
  destruct Hr as (t0 & _ & _ & Hout & _). fold out in Hout.
  apply map_eq. intros p. destruct (decide (p = out)) as [->|Hp].
  - by rewrite Hout, lookup_delete_eq.
  - rewrite lookup_delete_ne by done. by apply Hf.
Qed.

Lemma legacy_missing_configuration_never_exits (config : jsval) :
  not_exit (Legacy.missing_configuration config).
Proof.
  unfold Legacy.missing_configuration, obind.
  repeat match goal with
         | |- context [js_get config ?n] =>
             pose proof (js_get_never_exits config n);
             destruct (js_get config n) as [? | |]; [|done..];
             cbv beta iota; try (destruct (truthy _); simpl; [|done])
         end.
  done.
Qed.

Lemma legacy_call_split_never_exits (v : jsval) :
  not_exit (Legacy.call_split v).
Proof. by destruct v. Qed.

(** The scrutinee the next step of a computation is waiting for. *)
Ltac head_scrutinee t :=
  lazymatch t with
  | match ?x with _ => _ end => head_scrutinee x
  | (match ?x with _ => _ end) _ => head_scrutinee x
  | _ => t
  end.

(** An [Exit] that one of the value-level operations cannot produce. *)
Ltac never_exits :=
  exfalso;
  match goal with
  | H : js_get ?c ?n = Exit _ |- _ =>
      pose proof (js_get_never_exits c n) as X; by rewrite H in X
  | H : js_to_string ?v = Exit _ |- _ =>
      pose proof (js_to_string_never_exits v) as X; by rewrite H in X
  | H : Legacy.missing_configuration ?c = Exit _ |- _ =>
      pose proof (legacy_missing_configuration_never_exits c) as X;
      by rewrite H in X
  | H : Legacy.call_split ?v = Exit _ |- _ =>
      pose proof (legacy_call_split_never_exits v) as X; by rewrite H in X
  end.

(** X22. The plain tool's [build] lets no exception escape: a run completes
    or ends the process with status 1.  It changes no path other than its
    temporary directory and the archive in it.  A run that completes has
    removed both; a run that fails has removed nothing, so the temporary
    directory, once created, stays behind. *)
Theorem legacy_build_footprint (h : Host) (projectPath : string)
    (options : Legacy.BuildOptions) (w : World) :
  let tempDir :=
    path_join h (tmpdir h) ("build-service-" +:+ pretty (clock w)) in
  let archivePath := path_join h tempDir "project.tar.gz" in
  let r := Legacy.build h projectPath options w in
  (forall p, p <> tempDir -> p <> archivePath ->
             files (snd r) !! p = files w !! p)
  /\ exists t,
       trace (snd r) = trace w ++ t
       /\ match fst r with
          | Ret buildId =>
              buildId = pretty (clock w)
              /\ files (snd r) !! tempDir = None
              /\ files (snd r) !! archivePath = None
          | Throw _ => False
          | Exit c => c = 1 /\ no_unlink t
          end.
Proof.
  intros tempDir archivePath r. subst r.
  set (Post := fun x : outcome string * World =>
    (forall p, p <> tempDir -> p <> archivePath ->
               files (snd x) !! p = files w !! p)
    /\ exists t,
         trace (snd x) = trace w ++ t
         /\ match fst x with
            | Ret buildId =>
                buildId = pretty (clock w)
                /\ files (snd x) !! tempDir = None
                /\ files (snd x) !! archivePath = None
            | Throw _ => False
            | Exit c => c = 1 /\ no_unlink t
            end).
  change (Post (Legacy.build h projectPath options w)).
  unfold Legacy.build, try_catch, Legacy.loadConfig, existsSync, readFileSync,
    json_parse, Legacy.mkdirSync, Legacy.rmSync, write_file, Date_now,
    process_exit, mbind, lift, emit, of_result, mret, throw.
  cbn [files clock trace fst snd negb].
  fold tempDir. fold archivePath.
  repeat lazymatch goal with
  | |- _ (_, _) =>
      first
        [ never_exits
        | subst Post; cbv beta; cbn [fst snd files clock trace];
          split;
          [ intros ? ? ?;
            by rewrite ?lookup_delete_ne, ?lookup_insert_ne by done
          | eexists; split; [rewrite <- ?app_assoc; reflexivity|];
            first [ by split
                  | split; [reflexivity|]; split;
                    [ apply lookup_delete_eq
                    | apply lookup_delete_None; right;
                      apply lookup_delete_eq ] ] ] ]
  | |- _ ?x =>
      let s := head_scrutinee x in
      destruct s eqn:?; cbv beta iota; cbn [fst snd files clock trace]
  end.
Qed.
